(** * Execution core of the Tinkertoy kernel: dispatcher, task control block
      components and kernel service routines

    A shallow embedding of the C++ headers under [Sources/Execution].
    Pointers ([Task*], [UInt8*]) are addresses in [Z] with [0] for [nullptr];
    kernel code that mutates global objects is a function of an explicit
    state; [pfatal] and a failed [precondition] end a run in [Halted]. *)

From Stdlib Require Import ZArith List String Bool Lia.
Import ListNotations.
Open Scope Z_scope.

Set Implicit Arguments.

(** ** Outcomes of kernel code *)

(** A run of kernel code over a state [S] either returns a value and the
    state it leaves, or halts the machine with a diagnostic ([pfatal],
    [precondition]).  [IllFormed] stands for a template instantiation the
    compiler refuses (an unsatisfied [requires] clause, too few template
    arguments, an argument of the wrong type): there is no run at all. *)
Inductive Outcome (S A : Type) : Type :=
| Returned (a : A) (s : S)
| Halted (diagnostic : string) (s : S)
| IllFormed.

Arguments Returned {S A} a s.
Arguments Halted {S A} diagnostic s.
Arguments IllFormed {S A}.

Definition M (S A : Type) : Type := S -> Outcome S A.

Definition ret {S A : Type} (a : A) : M S A := fun s => Returned a s.

Definition bind {S A B : Type} (c : M S A) (f : A -> M S B) : M S B :=
  fun s =>
    match c s with
    | Returned a s' => f a s'
    | Halted d s' => Halted d s'
    | IllFormed => IllFormed
    end.

Definition gets {S A : Type} (f : S -> A) : M S A := fun s => Returned (f s) s.

Definition modify {S : Type} (f : S -> S) : M S unit := fun s => Returned tt (f s).

Definition ill_formed {S A : Type} : M S A := fun _ => IllFormed.

Declare Scope kernel_scope.
Delimit Scope kernel_scope with kernel.
Notation "x <- c ;; k" := (bind c (fun x => k))
  (at level 61, c at next level, right associativity) : kernel_scope.
Notation "c ;; k" := (bind c (fun _ => k))
  (at level 61, right associativity) : kernel_scope.
Open Scope kernel_scope.

(** Runs a computation on a component of a larger state. *)
Definition zoom {S T A : Type} (get : S -> T) (put : T -> S -> S) (c : M T A) : M S A :=
  fun s =>
    match c (get s) with
    | Returned a t => Returned a (put t s)
    | Halted d t => Halted d (put t s)
    | IllFormed => IllFormed
    end.

(** Modelled from the spec: the macro [pfatal] comes from [Debug.hpp], which
    is not part of these sources.  "Fatal errors emit a diagnostic and
    halt"; the logging macros [pinfo] and [perr] of the same header change
    nothing the kernel reads and are left out. *)
Definition pfatal {S A : Type} (diagnostic : string) : M S A :=
  fun s => Halted diagnostic s.

(** Modelled from the spec: [precondition(condition, message)] of
    [Debug.hpp] goes on when the condition holds and is a fatal error with
    the message when it does not. *)
Definition precondition {S : Type} (holds : bool) (diagnostic : string) : M S unit :=
  if holds then ret tt else pfatal diagnostic.

(** A function updated at one address. *)
Definition update {A : Type} (f : Z -> A) (k : Z) (v : A) : Z -> A :=
  fun x => if x =? k then v else f x.

Lemma update_eq {A : Type} (f : Z -> A) (k : Z) (v : A) : update f k v k = v.
Proof. unfold update. now rewrite Z.eqb_refl. Qed.

(** ** Data model *)

(** The argument types that initializers and system calls name
    ([using Arg = ...], [getSyscallArgument<T>]). *)
Inductive ArgType : Type :=
| size_t                 (* AllocateDedicatedStack::Arg *)
| stack_with_size        (* std::pair<UInt8*, size_t> *)
| entry_point            (* const UInt8* *)
| UInt32                 (* AssignUniqueIdentifier::Arg *)
| Priority               (* typename Task::Priority *)
| int                    (* the event number of sysSendEvent *)
| UInt8_ptr.             (* the old stack pointer of sysEventHandlerReturn *)

(** A value of one of these types: a machine word, or the two members of a
    pair. *)
Inductive Value : Type :=
| word (w : Z)
| std_pair (first second : Z).

Definition has_type (ty : ArgType) (v : Value) : bool :=
  match ty, v with
  | stack_with_size, std_pair _ _ => true
  | stack_with_size, word _ => false
  | _, word _ => true
  | _, std_pair _ _ => false
  end.

(** The inlined system call arguments of a trapped task: a [va_list] is a
    cursor [position] over the argument words [slots].  Reading past what the
    caller passed yields whatever the slots hold. *)
Record va_list : Type := mk_va_list {
  slots : nat -> Z;
  position : nat
}.

(** Modelled from the spec: [va_arg] of [<cstdarg>].  "Each sequential call to
    get_syscall_argument<T>() advances the argument cursor by exactly
    sizeof(T)": one word for a scalar or pointer, two for the pair. *)
Definition va_arg (ty : ArgType) (ap : va_list) : Value * va_list :=
  let n := position ap in
  match ty with
  | stack_with_size =>
      (std_pair (slots ap n) (slots ap (S n)), mk_va_list (slots ap) (S (S n)))
  | _ => (word (slots ap n), mk_va_list (slots ap) (S n))
  end.

(** The saved execution context at the top of a trapped task's stack, through
    the three accessors of [ExecutionContextProvidesSystemCallSupport]. *)
Record ExecutionContext : Type := mkContext {
  syscallIdentifier : Z;
  syscallArgumentList : va_list;
  syscallKernelReturnValue : Z
}.

(** The fields the components of [TaskControlBlockComponents] declare. *)
Record TaskControlBlock : Type := mkTCB {
  stackPointer : Z;      (* DedicatedNonRecyclableStackSupport *)
  stack : Z;             (* DedicatedRecyclableStackSupport *)
  identifier : Z;        (* UniqueNumericIdentifierSupport *)
  priority : Z;          (* PriorityLevelSupport *)
  handler : Z            (* EventHandlerSupport *)
}.

(** The types of the global objects the kernel developer declares: the
    allocator behind [new], the task controller and the scheduler. *)
Class KernelObjects : Type := {
  Heap : Type;
  Pool : Type;
  Sched : Type
}.

(** What tasks and initializers can reach: the shared stack pointer cell
    ([OSDeclareSharedTaskStackPointer]), the task control blocks by address,
    memory read as execution contexts by address, and the heap. *)
Record World `{KernelObjects} : Type := mkWorld {
  SharedTaskStackPointer : Z;
  tcb : Z -> TaskControlBlock;
  context_at : Z -> ExecutionContext;
  heap : Heap
}.

Arguments mkWorld {_} _ _ _ _.

(** Calls of the architecture-specific primitives, in the order made. *)
Inductive Call : Type :=
| BuildContext (prev next : Z)       (* ContextBuilder{}(prev, next) *)
| SwitchTask (prev next : Z).        (* Switcher::switchTask(prev, next) *)

Record Kernel `{KernelObjects} : Type := mkKernel {
  world : World;
  pool : Pool;                       (* GetTaskController<C>() *)
  sched : Sched;                     (* GetTaskScheduler<S>() *)
  calls : list Call
}.

Arguments mkKernel {_} _ _ _ _.

Section Lifting.
Context `{KernelObjects}.

Definition with_world (w : World) (k : Kernel) : Kernel :=
  mkKernel w (pool k) (sched k) (calls k).
Definition with_pool (p : Pool) (k : Kernel) : Kernel :=
  mkKernel (world k) p (sched k) (calls k).
Definition with_sched (s : Sched) (k : Kernel) : Kernel :=
  mkKernel (world k) (pool k) s (calls k).
Definition record_call (c : Call) (k : Kernel) : Kernel :=
  mkKernel (world k) (pool k) (sched k) (calls k ++ [c]).

Definition in_world {A : Type} (c : M World A) : M Kernel A :=
  zoom world with_world c.

Definition with_tcb (task : Z) (t : TaskControlBlock) (w : World) : World :=
  mkWorld (SharedTaskStackPointer w) (update (tcb w) task t) (context_at w) (heap w).
Definition with_context (sp : Z) (c : ExecutionContext) (w : World) : World :=
  mkWorld (SharedTaskStackPointer w) (tcb w) (update (context_at w) sp c) (heap w).
Definition with_heap (h : Heap) (w : World) : World :=
  mkWorld (SharedTaskStackPointer w) (tcb w) (context_at w) h.
End Lifting.

(** The architecture-specific and runtime primitives the core consumes. *)
Class Architecture `{KernelObjects} : Type := {
  (* new UInt8[size]: the address of the block, nullptr when out of memory *)
  operator_new : Z -> Heap -> Z * Heap;
  (* TaskContextBuilder{}(task, entryPoint) of SetupExecutionContext *)
  TaskContextBuilder : Z -> Z -> World -> World;
  (* ContextBuilder{}(prev, next) of the trampoline injectors *)
  ContextBuilder : Z -> Z -> World -> World;
  (* Switcher::switchTask(prev, next): user code runs, then the kernel is
     entered again with a service identifier *)
  switchTask : Z -> Z -> World -> Z * World
}.

(** The scheduler hooks ([Scheduler/Scheduler.hpp]): each reads the tasks and
    updates the scheduler object. *)
Class Scheduler `{KernelObjects} : Type := {
  onTaskCreated : World -> Z -> Z -> Sched -> Z * Sched;
  onTaskFinished : World -> Z -> Sched -> Z * Sched
}.

(** ** Task control block components ([TaskControlBlockComponents.hpp]) *)

(** [TaskProvidesStackPointerReadAccess] and
    [TaskProvidesStackPointerWriteAccess]: how a concrete task control block
    reads and writes its stack pointer. *)
Class StackSupport `{KernelObjects} : Type := {
  getStackPointer : Z -> World -> Z;
  setStackPointer : Z -> Z -> World -> World
}.

Module TaskControlBlockComponents.
Section Components.
Context `{KernelObjects}.

(** [SharedStackSupport]: every task reads and writes the one cell behind
    [GetSharedTaskStackPointer()]. *)
Definition SharedStackSupport : StackSupport := {|
  getStackPointer := fun _ w => SharedTaskStackPointer w;
  setStackPointer := fun _ newStackPointer w =>
    mkWorld newStackPointer (tcb w) (context_at w) (heap w)
|}.

(** [DedicatedNonRecyclableStackSupport]: the field [stackPointer] of the
    task's own control block. *)
Definition DedicatedNonRecyclableStackSupport : StackSupport := {|
  getStackPointer := fun task w => stackPointer (tcb w task);
  setStackPointer := fun task newStackPointer w =>
    let t := tcb w task in
    with_tcb task
      (mkTCB newStackPointer (stack t) (identifier t) (priority t) (handler t)) w
|}.

(** [TaskHasDedicatedRecyclableStack]: read and write access to the start
    address of the task's private stack, as the stack initializers call it
    on the task they are given; the task keeps the address in [stack].
    [getPrivateStack] is also the getter of the component
    [DedicatedRecyclableStackSupport]. *)
Definition getPrivateStack (task : Z) (w : World) : Z := stack (tcb w task).

Definition setPrivateStack (task newStack : Z) (w : World) : World :=
  let t := tcb w task in
  with_tcb task
    (mkTCB (stackPointer t) newStack (identifier t) (priority t) (handler t)) w.

(** [DedicatedRecyclableStackSupport::setPrivateStack(const UInt8* newStack)]
    as the component has it: its body assigns the pointer to [const UInt8]
    to the member [UInt8* stack], which drops the qualifier; the compiler
    refuses the member function wherever it is used, so a task that takes
    its setter from this component has none. *)
Definition DedicatedRecyclableStackSupport_setPrivateStack
    (task newStack : Z) : M World unit :=
  ill_formed.

(** [UniqueNumericIdentifierSupport]. *)
Definition getUniqueIdentifier (task : Z) (w : World) : Z := identifier (tcb w task).

Definition setUniqueIdentifier (task newIdentifier : Z) (w : World) : World :=
  let t := tcb w task in
  with_tcb task
    (mkTCB (stackPointer t) (stack t) newIdentifier (priority t) (handler t)) w.

(** [PriorityLevelSupport]. *)
Definition getPriority (task : Z) (w : World) : Z := priority (tcb w task).

Definition setPriority (task newPriority : Z) (w : World) : World :=
  let t := tcb w task in
  with_tcb task
    (mkTCB (stackPointer t) (stack t) (identifier t) newPriority (handler t)) w.

(** [EventHandlerSupport]. *)
Definition getHandler (task : Z) (w : World) : Z := handler (tcb w task).

Definition setHandler (task newHandler : Z) (w : World) : World :=
  let t := tcb w task in
  with_tcb task
    (mkTCB (stackPointer t) (stack t) (identifier t) (priority t) newHandler) w.

(** Modelled from the spec: [operator>] on tasks comes from
    [Scheduler/Constraint/Prioritizable.hpp], which is not part of these
    sources.  "A priority (a totally ordered value; larger = higher)";
    [*next > *prev] holds when [next] has the strictly larger priority. *)
Definition task_gt (next prev : Z) (w : World) : bool :=
  getPriority prev w <? getPriority next w.

Section SystemCallSupport.
Context {SS : StackSupport}.

(** [SystemCallSupport]: the top of the task's stack read as its saved
    execution context. *)
Definition getExecutionContext (task : Z) (w : World) : ExecutionContext :=
  context_at w (getStackPointer task w).

(** [getSyscallArgument<Arg>()]: [va_arg] on the context's argument list,
    which is left advanced. *)
Definition getSyscallArgument (Arg : ArgType) (task : Z) : M World Value :=
  fun w =>
    let sp := getStackPointer task w in
    let ctx := context_at w sp in
    let (v, ap) := va_arg Arg (syscallArgumentList ctx) in
    Returned v
      (with_context sp
         (mkContext (syscallIdentifier ctx) ap (syscallKernelReturnValue ctx)) w).

Definition setSyscallKernelReturnValue (task retVal : Z) (w : World) : World :=
  let sp := getStackPointer task w in
  let ctx := context_at w sp in
  with_context sp
    (mkContext (syscallIdentifier ctx) (syscallArgumentList ctx) retVal) w.

End SystemCallSupport.
End Components.

(** What the routines rely on from a stack component: a written stack
    pointer is read back, and writing a saved context does not move the
    stack pointer. *)
Class LawfulStackSupport `{KernelObjects} (SS : StackSupport) : Prop := {
  getStackPointer_setStackPointer :
    forall task p w, getStackPointer task (setStackPointer task p w) = p;
  getStackPointer_with_context :
    forall task sp c w, getStackPointer task (with_context sp c w) = getStackPointer task w
}.

Lemma SharedStackSupport_lawful `{KernelObjects} :
  LawfulStackSupport SharedStackSupport.
Proof. split; reflexivity. Qed.

Lemma DedicatedNonRecyclableStackSupport_lawful `{KernelObjects} :
  LawfulStackSupport DedicatedNonRecyclableStackSupport.
Proof.
  split; intros; cbn; try reflexivity.
  now rewrite update_eq.
Qed.

End TaskControlBlockComponents.
Import TaskControlBlockComponents.

(** ** Common kernel service routines ([Common/KernelServiceRoutines.hpp]) *)

Module KernelServiceRoutines.
Section Common.
Context `{KernelObjects}.

(** [UnknownServiceIdentifier]: the body is the one [pfatal]. *)
Definition UnknownServiceIdentifier (task : Z) : M Kernel Z :=
  pfatal "Unknown system call identifier.".

(** [TaskControllerProvidesBasicAllocationSupport]: a task controller
    allocates a free task control block ([nullptr] when none is left) and
    takes one back. *)
Record TaskController : Type := mkTaskController {
  allocate : Pool -> Z * Pool;
  release : Z -> Pool -> Pool
}.

(** [GetTaskController<C>().allocate()] and [.release(task)]: the calls act
    on the global controller object. *)
Definition controller_allocate (TaskController : TaskController) : M Kernel Z :=
  fun k =>
    let (newTask, p) := allocate TaskController (pool k) in
    Returned newTask (with_pool p k).

Definition controller_release (TaskController : TaskController) (task : Z) : M Kernel unit :=
  modify (fun k => with_pool (release TaskController task (pool k)) k).

(** [GetTaskScheduler<S>().onTaskCreated(task, newTask)] and
    [.onTaskFinished(task)]: the hooks see the tasks as they are at the call
    and act on the global scheduler object. *)
Definition scheduler_onTaskCreated {Sch : Scheduler} (task newTask : Z) : M Kernel Z :=
  fun k =>
    let (next, s) := onTaskCreated (world k) task newTask (sched k) in
    Returned next (with_sched s k).

Definition scheduler_onTaskFinished {Sch : Scheduler} (task : Z) : M Kernel Z :=
  fun k =>
    let (next, s) := onTaskFinished (world k) task (sched k) in
    Returned next (with_sched s k).

End Common.
End KernelServiceRoutines.
Import KernelServiceRoutines.

(** ** Creating threads ([SimpleThreadBased/KernelServiceRoutines.hpp]) *)

Module CreateThread.

(** A task control block initializer: the argument type it names with
    [using Arg = ...] and its [operator()(Task*, Arg)]. *)
Record Initializer `{KernelObjects} : Type := mkInitializer {
  Arg : ArgType;
  invoke : Z -> Value -> M World bool
}.

Module KPI.
Section Initializers.
Context `{A : Architecture} {SS : StackSupport}.

(** [new UInt8[size]] on the kernel heap. *)
Definition new_UInt8_array (size : Z) : M World Z :=
  fun w =>
    let (block, h) := operator_new size (heap w) in
    Returned block (with_heap h w).

Definition AllocateDedicatedStack : Initializer := {|
  Arg := size_t;
  invoke := fun task v =>
    match v with
    | word stackSize =>
        stack <- new_UInt8_array stackSize ;;
        if stack =? 0 then ret false
        else
          modify (setStackPointer task (stack + stackSize)) ;;
          ret true
    | std_pair _ _ => ill_formed
    end
|}.

Definition AllocateDedicatedRecyclableStack : Initializer := {|
  Arg := size_t;
  invoke := fun task v =>
    match v with
    | word stackSize =>
        stack <- new_UInt8_array stackSize ;;
        if stack =? 0 then ret false
        else
          modify (setPrivateStack task stack) ;;
          modify (setStackPointer task (stack + stackSize)) ;;
          ret true
    | std_pair _ _ => ill_formed
    end
|}.

Definition AssignDedicatedRecyclableStackWithSize : Initializer := {|
  Arg := stack_with_size;
  invoke := fun task v =>
    match v with
    | std_pair first second =>
        modify (setPrivateStack task first) ;;
        modify (setStackPointer task (first + second)) ;;
        ret true
    | word _ => ill_formed
    end
|}.

Definition SetupExecutionContext : Initializer := {|
  Arg := entry_point;
  invoke := fun task v =>
    match v with
    | word entryPoint =>
        sp <- gets (getStackPointer task) ;;
        precondition (negb (sp =? 0)) "No stack is assigned to the given task." ;;
        modify (TaskContextBuilder task entryPoint) ;;
        ret true
    | std_pair _ _ => ill_formed
    end
|}.

Definition AssignUniqueIdentifier : Initializer := {|
  Arg := UInt32;
  invoke := fun task v =>
    match v with
    | word identifier =>
        modify (setUniqueIdentifier task identifier) ;;
        ret true
    | std_pair _ _ => ill_formed
    end
|}.

Definition AssignPriority : Initializer := {|
  Arg := Priority;
  invoke := fun task v =>
    match v with
    | word priority =>
        modify (setPriority task priority) ;;
        ret true
    | std_pair _ _ => ill_formed
    end
|}.

(** [AssignDedicatedStack] is not among these: its [operator()] is a template
    over the length of an array passed by reference and it names no [Arg], so
    it is no initializer in the sense above and cannot stand in the system
    call form.  It is given further below as a function of its own. *)

(** [requires (sizeof...(Initializers) == sizeof...(Args))], and each
    argument is passed to an [operator()] that takes its initializer's
    [Arg]. *)
Fixpoint arguments_match (Initializers : list Initializer) (args : list Value) : bool :=
  match Initializers, args with
  | [], [] => true
  | Init :: Initializers', a :: args' =>
      has_type (Arg Init) a && arguments_match Initializers' args'
  | _, _ => false
  end.

(** The fold expression [((Initializers{}(task, args)) && ...)]: the operands
    are evaluated left to right and [&&] skips the rest after a [false]. *)
Fixpoint fold_and (Initializers : list Initializer) (task : Z) (args : list Value)
  : M World bool :=
  match Initializers, args with
  | Init :: Initializers', a :: args' =>
      ok <- invoke Init task a ;;
      if ok then fold_and Initializers' task args' else ret false
  | _, _ => ret true
  end.

Definition TaskInitializerBuilderWithArgs
    (Initializers : list Initializer) (task : Z) (args : list Value) : M World bool :=
  if arguments_match Initializers args
  then fold_and Initializers task args
  else ill_formed.

End Initializers.
End KPI.
Import KPI.

Section Builders.
Context `{A : Architecture} {Sch : Scheduler} {SS : StackSupport}.

(** [ServiceRoutineBuilder<Task, TaskScheduler, TaskController,
    Initializers...>::operator()(task, args...)], the in-kernel form.  Its
    body instantiates [TaskInitializerBuilderWithArgs] with [args], so the
    requirement on the arguments is the compiler's, whatever the run does. *)
Definition ServiceRoutineBuilder
    (TaskController : TaskController) (Initializers : list Initializer)
    (task : Z) (args : list Value) : M Kernel Z :=
  if negb (arguments_match Initializers args) then ill_formed
  else
    newTask <- controller_allocate TaskController ;;
    if newTask =? 0 then
      in_world (modify (setSyscallKernelReturnValue task (-1))) ;;
      ret task
    else
      ok <- in_world (TaskInitializerBuilderWithArgs Initializers newTask args) ;;
      if negb ok then
        controller_release TaskController newTask ;;
        in_world (modify (setSyscallKernelReturnValue task (-1))) ;;
        ret task
      else
        scheduler_onTaskCreated task newTask.

(** [ServiceRoutineBuilder<...>::execute(task, args...)], the static helper
    that calls the in-kernel form. *)
Definition execute
    (TaskController : TaskController) (Initializers : list Initializer)
    (task : Z) (args : list Value) : M Kernel Z :=
  ServiceRoutineBuilder TaskController Initializers task args.

(** A class type handed to a template as a type argument, by what it can be
    used as: a task controller, an initializer, both or neither. *)
Record ClassType : Type := mkClassType {
  as_controller : option KernelServiceRoutines.TaskController;
  as_initializer : option Initializer
}.

Definition controller_type (C : KernelServiceRoutines.TaskController) : ClassType :=
  mkClassType (Some C) None.

Definition initializer_type (Init : Initializer) : ClassType :=
  mkClassType None (Some Init).

Fixpoint initializers_of (types : list ClassType) : option (list Initializer) :=
  match types with
  | [] => Some []
  | T :: types' =>
      match as_initializer T, initializers_of types' with
      | Some Init, Some Is => Some (Init :: Is)
      | _, _ => None
      end
  end.

(** [ServiceRoutineBuilder<Task, TaskScheduler, Types...>::execute]: the
    template's parameters after the scheduler are [TaskController,
    Initializers...], so the first type of the pack is taken as the task
    controller (and must satisfy
    [TaskControllerProvidesBasicAllocationSupport]) and the rest are the
    initializers. *)
Definition ServiceRoutineBuilder_of (Types : list ClassType)
    (task : Z) (args : list Value) : M Kernel Z :=
  match Types with
  | [] => ill_formed
  | TaskController :: Initializers =>
      match as_controller TaskController, initializers_of Initializers with
      | Some C, Some Is => execute C Is task args
      | _, _ => ill_formed
      end
  end.

(** The lambda [collector]: the comma fold assigns the tuple's members one by
    one, each from [getSyscallArgument<typename Initializers::Arg>()]. *)
Fixpoint collector (Initializers : list Initializer) (task : Z) : M World (list Value) :=
  match Initializers with
  | [] => ret []
  | Init :: Initializers' =>
      v <- getSyscallArgument (Arg Init) task ;;
      arguments <- collector Initializers' task ;;
      ret (v :: arguments)
  end.

(** [ServiceRoutineBuilderWithTaskArgs<Task, TaskScheduler, TaskController,
    Initializers...>::operator()(task)], the system call form.  After the
    arguments are collected it applies
    [ServiceRoutineBuilder<Task, TaskScheduler, Initializers...>::execute]:
    [TaskController] is not among that template-id's arguments. *)
Definition ServiceRoutineBuilderWithTaskArgs
    (TaskController : ClassType) (Initializers : list ClassType) (task : Z)
  : M Kernel Z :=
  match as_controller TaskController, initializers_of Initializers with
  | Some _, Some Is =>
      arguments <- in_world (collector Is task) ;;
      ServiceRoutineBuilder_of Initializers task arguments
  | _, _ => ill_formed
  end.

End Builders.
End CreateThread.
Import CreateThread CreateThread.KPI.

(** ** The simple event-driven model ([SimpleEventDriven]) *)

Module EventDriven.

(** [TableBasedEventController<Task, Event, NumTasks>]: the member array
    [Task tasks[NumTasks]] lies at the address [tasks]; [&this->tasks[event]]
    is that address advanced by [event] elements.  [Event] is an unsigned
    integral type of [Event_bits] bits. *)
Record TableBasedEventController : Type := mkTable {
  tasks : Z;
  sizeof_Task : Z;
  NumTasks : Z;
  Event_bits : Z
}.

(** The indices of the array [Task tasks[NumTasks]]. *)
Definition in_table (c : TableBasedEventController) (event : Z) : bool :=
  (0 <=? event) && (event <? NumTasks c).

(** [getRegisteredEvent] and [registerEvent] index the array with the event
    as it is, without comparing it with [NumTasks].  For an index of the
    array the element is the one at [tasks] advanced by [event] elements;
    for any other index [this->tasks[event]] has no defined behaviour, and
    there is no result: [None]. *)
Definition getRegisteredEvent (c : TableBasedEventController) (event : Z) : option Z :=
  if in_table c event then Some (tasks c + event * sizeof_Task c) else None.


Section Routines.
Context `{KernelObjects} {Sch : Scheduler} {SS : StackSupport}.

(** [SyscallSendEvent<Task, TaskScheduler, TaskMapper>]. *)
Definition SyscallSendEvent (TaskMapper : Z -> Z) (task : Z) : M Kernel Z :=
  v <- in_world (getSyscallArgument int task) ;;
  match v with
  | word event => scheduler_onTaskCreated task (TaskMapper event)
  | std_pair _ _ => ill_formed
  end.

(** [SyscallSendEvent] with a mapper whose [operator()] is any function
    call: it may end in a fatal error and may act on the kernel's state.  The
    arguments of [onTaskCreated] are evaluated before it is called.
    [SyscallSendEvent] above is the case of a mapper that only computes. *)
Definition SyscallSendEvent_through (TaskMapper : Z -> M Kernel Z) (task : Z)
  : M Kernel Z :=
  v <- in_world (getSyscallArgument int task) ;;
  match v with
  | word event =>
      newTask <- TaskMapper event ;;
      scheduler_onTaskCreated task newTask
  | std_pair _ _ => ill_formed
  end.

(** [SyscallEventHandlerReturn<Task, TaskScheduler>]. *)
Definition SyscallEventHandlerReturn (task : Z) : M Kernel Z :=
  v <- in_world (getSyscallArgument UInt8_ptr task) ;;
  match v with
  | word oldStackPointer =>
      in_world (modify (setStackPointer task oldStackPointer)) ;;
      scheduler_onTaskFinished task
  | std_pair _ _ => ill_formed
  end.

End Routines.

Section Injectors.
Context `{A : Architecture}.

(** [ContextBuilder{}(prev, next)], noted among the calls made. *)
Definition invoke_ContextBuilder (prev next : Z) : M Kernel unit :=
  modify (fun k =>
    record_call (BuildContext prev next)
      (with_world (ContextBuilder prev next (world k)) k)).

(** [PreemptiveEventHandlerTrampolineContextInjector]. *)
Definition PreemptiveEventHandlerTrampolineContextInjector (prev next : Z)
  : M Kernel unit :=
  higher <- gets (fun k => task_gt next prev (world k)) ;;
  if higher then invoke_ContextBuilder prev next else ret tt.

(** [CooperativeEventHandlerTrampolineContextInjector]. *)
Definition CooperativeEventHandlerTrampolineContextInjector (prev next : Z)
  : M Kernel unit :=
  if negb (next =? prev) then invoke_ContextBuilder prev next else ret tt.

End Injectors.
End EventDriven.
Import EventDriven.

(** ** The dispatcher ([Common/Dispatcher.hpp]) *)

Module Dispatch.

(** The two members of [class Dispatcher]. *)
Record Dispatcher : Type := mkDispatcher {
  prev : Z;
  next : Z
}.

Section Loop.
Context `{A : Architecture}.

(** [DispatcherCodeInjector]: [Injector{}(prev, next)] returns nothing. *)
Definition CodeInjector : Type := Z -> Z -> M Kernel unit.

(** [KernelServiceRoutineMapper]: from a service identifier to a routine
    [Task* (*)(Task*)]. *)
Definition RoutineMapper : Type := Z -> Z -> M Kernel Z.

(** The fold [((Injector{}(this->prev, this->next)), ...)] over the comma
    operator. *)
Fixpoint inject (Injector : list CodeInjector) (prev next : Z) : M Kernel unit :=
  match Injector with
  | [] => ret tt
  | J :: Injector' => J prev next ;; inject Injector' prev next
  end.

(** [Switcher::switchTask(prev, next)], noted among the calls made. *)
Definition switch (prev next : Z) : M Kernel Z :=
  fun k =>
    let (identifier, w) := switchTask prev next (world k) in
    Returned identifier (record_call (SwitchTask prev next) (with_world w k)).

(** The body of the [while (true)] loop of [dispatch]. *)
Definition iteration (Injector : list CodeInjector) (ServiceRoutineMapper : RoutineMapper)
    (this : Dispatcher) : M Kernel Dispatcher :=
  inject Injector (prev this) (next this) ;;
  identifier <- switch (prev this) (next this) ;;
  let this1 := mkDispatcher (next this) (next this) in
  next' <- ServiceRoutineMapper identifier (prev this1) ;;
  ret (mkDispatcher (prev this1) next').

(** [dispatch] never returns; [turns] bounds how many times the loop body is
    run. *)
Fixpoint dispatch (turns : nat) (Injector : list CodeInjector)
    (ServiceRoutineMapper : RoutineMapper) (this : Dispatcher) : M Kernel Dispatcher :=
  match turns with
  | O => ret this
  | S turns' =>
      this' <- iteration Injector ServiceRoutineMapper this ;;
      dispatch turns' Injector ServiceRoutineMapper this'
  end.

End Loop.
End Dispatch.
Import Dispatch.

(** ** A concrete kernel

    A small machine on which the routines can be run: a bump allocator
    behind [new], a free list of task control blocks as task controller and
    a scheduler that prefers the strictly higher priority. *)

Module Machine.

#[local] Instance objects : KernelObjects := {|
  Heap := Z;                (* the next free address *)
  Pool := list Z;           (* the free task control blocks *)
  Sched := list Z           (* the tasks made ready, oldest first *)
|}.

Definition heap_limit : Z := 8192.

Definition blank_arguments : va_list := mk_va_list (fun _ => 0) 0.

Definition arguments_of (words : list Z) : va_list :=
  mk_va_list (fun n => nth n words 0) 0.

#[local] Instance architecture : Architecture := {|
  operator_new := fun size brk =>
    if brk + size <=? heap_limit then (brk, brk + size) else (0, brk);
  TaskContextBuilder := fun task entryPoint w =>
    let t := tcb w task in
    let sp := stackPointer t - 16 in
    with_context sp (mkContext 0 blank_arguments entryPoint)
      (with_tcb task (mkTCB sp (stack t) (identifier t) (priority t) (handler t)) w);
  ContextBuilder := fun prev next w =>
    let sp := SharedTaskStackPointer w - 16 in
    with_context sp
      (mkContext 0 (arguments_of [SharedTaskStackPointer w]) (handler (tcb w next)))
      (mkWorld sp (tcb w) (context_at w) (heap w));
  switchTask := fun prev next w =>
    (syscallIdentifier (context_at w (SharedTaskStackPointer w)), w)
|}.

#[local] Instance scheduler : Scheduler := {|
  onTaskCreated := fun w task newTask ready =>
    (if priority (tcb w task) <? priority (tcb w newTask) then newTask else task,
     ready ++ [newTask]);
  onTaskFinished := fun w task ready =>
    match ready with
    | [] => (task, [])
    | t :: ready' => (t, ready')
    end
|}.

(** The free list as a task controller. *)
Definition FreeList : TaskController := {|
  allocate := fun free =>
    match free with
    | [] => (0, [])
    | t :: free' => if t =? 0 then (0, free) else (t, free')
    end;
  release := fun task free => task :: free
|}.

Definition no_task : TaskControlBlock := mkTCB 0 0 0 0 0.

Definition no_context : ExecutionContext := mkContext 0 blank_arguments 0.

(** The thread-based kernel: the running task at address 100 has trapped
    with its context at 1000 and the arguments of [sys_create_thread] inlined
    (a stack at 5000 of 256 bytes, the entry point 4242, the identifier 7 and
    the priority 3); the blocks at 200 and 300 are free. *)
Definition thread_world (words : list Z) : World := {|
  SharedTaskStackPointer := 0;
  tcb := fun a => if a =? 100 then mkTCB 1000 900 1 1 0 else no_task;
  context_at := fun a => if a =? 1000 then mkContext 1 (arguments_of words) 0 else no_context;
  heap := 4096
|}.

Definition thread_kernel (words : list Z) (free : list Z) : Kernel :=
  mkKernel (thread_world words) free [] [].

(** The event-driven kernel: the idle task at 100 with priority 0, the
    handler blocks of the events 0 and 1 in a table at 500 with priorities 1
    and 2; the shared stack pointer is [sp] and the trapped context there
    holds the inlined arguments [words]. *)
Definition table : TableBasedEventController := {|
  tasks := 500;
  sizeof_Task := 16;
  NumTasks := 2;
  Event_bits := 32
|}.

(** A mapper a kernel developer could supply over the table: the [int] it
    is called with converts to the unsigned [Event]; an event of the table
    is mapped to its block, and any other event to the block of event 0. *)
Definition TableMapper (c : TableBasedEventController) (event : Z) : Z :=
  match getRegisteredEvent c (event mod 2 ^ Event_bits c) with
  | Some block => block
  | None => tasks c
  end.

Definition event_world (sp : Z) (identifier : Z) (words : list Z) : World := {|
  SharedTaskStackPointer := sp;
  tcb := fun a =>
    if a =? 500 then mkTCB 0 0 0 1 7000
    else if a =? 516 then mkTCB 0 0 0 2 7100
    else no_task;
  context_at := fun a =>
    if a =? sp then mkContext identifier (arguments_of words) 0 else no_context;
  heap := 4096
|}.

Definition event_kernel (sp : Z) (identifier : Z) (words : list Z) : Kernel :=
  mkKernel (event_world sp identifier words) [] [] [].

(** A service routine mapper over trap numbers: 1 sends an event, 2 returns
    from a handler, anything else is unknown. *)
Definition mapper : RoutineMapper := fun identifier =>
  if identifier =? 1 then SyscallSendEvent (SS := SharedStackSupport) (TableMapper table)
  else if identifier =? 2 then SyscallEventHandlerReturn (SS := SharedStackSupport)
  else UnknownServiceIdentifier.

End Machine.

(** * Properties *)

Unset Implicit Arguments.

Ltac unfold_monad :=
  unfold in_world in *;
  unfold bind, ret, gets, modify, ill_formed, pfatal, precondition, zoom in *.

(** ** [unknown_identifier] *)

(** C9.  For every input task and every kernel state,
    [UnknownServiceIdentifier] halts with its diagnostic, leaving the state
    as it found it; there is no task and state it returns. *)
Theorem UnknownServiceIdentifier_halts `{KernelObjects} (task : Z) (k : Kernel) :
  UnknownServiceIdentifier task k = Halted "Unknown system call identifier." k
  /\ forall (next : Z) (k' : Kernel), UnknownServiceIdentifier task k <> Returned next k'.
Proof.
  split.
  - reflexivity.
  - intros next k'. unfold UnknownServiceIdentifier, pfatal. discriminate.
Qed.

(** ** Trampoline injectors *)

Section InjectorProperties.
Context `{A : Architecture}.

(** The state an injector leaves when it calls the context builder. *)
Definition built (prev next : Z) (k : Kernel) : Kernel :=
  record_call (BuildContext prev next)
    (with_world (ContextBuilder prev next (world k)) k).

Lemma calls_not_extended (k : Kernel) (c : Call) : calls k <> calls k ++ [c].
Proof.
  intros E. apply (f_equal (@List.length Call)) in E.
  rewrite length_app in E. cbn in E. lia.
Qed.

(** C6.  The preemptive injector calls the context builder on [(prev, next)]
    exactly when [next] has the strictly greater priority, the cooperative
    one exactly when [next] is not [prev]; when an injector does not call it,
    the kernel state is left as it was. *)
Theorem trampoline_injectors_gate (prev next : Z) (k : Kernel) :
  (exists k',
      PreemptiveEventHandlerTrampolineContextInjector prev next k = Returned tt k'
      /\ (calls k' = calls k ++ [BuildContext prev next]
          <-> getPriority next (world k) > getPriority prev (world k))
      /\ (getPriority next (world k) > getPriority prev (world k) -> k' = built prev next k)
      /\ (~ getPriority next (world k) > getPriority prev (world k) -> k' = k))
  /\ (exists k',
      CooperativeEventHandlerTrampolineContextInjector prev next k = Returned tt k'
      /\ (calls k' = calls k ++ [BuildContext prev next] <-> next <> prev)
      /\ (next <> prev -> k' = built prev next k)
      /\ (~ next <> prev -> k' = k)).
Proof.
  split.
  - unfold PreemptiveEventHandlerTrampolineContextInjector, invoke_ContextBuilder, task_gt.
    unfold_monad.
    destruct (getPriority prev (world k) <? getPriority next (world k)) eqn:E.
    + apply Z.ltb_lt in E. eexists; split; [reflexivity|].
      repeat split; intros; try reflexivity; try lia.
    + apply Z.ltb_ge in E. eexists; split; [reflexivity|].
      repeat split; intros; try reflexivity; try lia.
      exfalso. eapply calls_not_extended; eassumption.
  - unfold CooperativeEventHandlerTrampolineContextInjector, invoke_ContextBuilder.
    unfold_monad.
    destruct (next =? prev) eqn:E; cbn.
    + apply Z.eqb_eq in E. eexists; split; [reflexivity|].
      repeat split; intros; try reflexivity; try congruence.
      exfalso. eapply calls_not_extended; eassumption.
    + apply Z.eqb_neq in E. eexists; split; [reflexivity|].
      repeat split; intros; try reflexivity; try congruence; try contradiction.
Qed.

End InjectorProperties.

(** ** Event-driven service routines *)

Section EventRoutineProperties.
Context `{KernelObjects} {Sch : Scheduler}.

(** The first system call argument of a trapped task: the word under the
    cursor of its saved context. *)
Definition first_argument {SS : StackSupport} (task : Z) (w : World) : Z :=
  let ap := syscallArgumentList (getExecutionContext task w) in
  slots ap (position ap).

(** C5.  [SyscallEventHandlerReturn] reads [old_sp] as the first system call
    argument, sets the task's stack pointer to it and only then asks the
    scheduler: the hook [onTaskFinished(task)] sees the restored stack
    pointer, its answer is the next task, and in the shared-stack composition
    the shared stack pointer is [old_sp] afterwards, whatever it was before. *)
Theorem event_handler_return_restores_stack
    (SS : StackSupport) (L : LawfulStackSupport SS) (task : Z) (k : Kernel) :
  let old_sp := first_argument task (world k) in
  exists k',
    SyscallEventHandlerReturn task k
      = Returned (fst (onTaskFinished (world k') task (sched k))) k'
    /\ getStackPointer task (world k') = old_sp
    /\ sched k' = snd (onTaskFinished (world k') task (sched k))
    /\ (SS = SharedStackSupport -> SharedTaskStackPointer (world k') = old_sp).
Proof.
  intros old_sp.
  unfold SyscallEventHandlerReturn, scheduler_onTaskFinished, getSyscallArgument.
  unfold_monad. cbn.
  match goal with
  | |- context [onTaskFinished ?w task (sched k)] =>
      destruct (onTaskFinished w task (sched k)) as [t s] eqn:E
  end.
  match goal with |- exists k', Returned _ ?K = _ /\ _ => exists K end.
  cbn. rewrite E. cbn. repeat split.
  - apply getStackPointer_setStackPointer.
  - intros ->. reflexivity.
Qed.


End EventRoutineProperties.

(** ** The composite initializer *)

Section InitializerProperties.
Context `{A : Architecture} {SS : StackSupport}.

(** [Succeed Is task args w w']: every initializer of [Is] is invoked in
    declaration order on [task] with its own argument, each returns [true],
    each starts in the state the one before left, and the last leaves [w']. *)
Inductive Succeed (task : Z)
  : list Initializer -> list Value -> World -> World -> Prop :=
| Succeed_nil (w : World) : Succeed task [] [] w w
| Succeed_cons (Init : Initializer) (Is : list Initializer)
    (a : Value) (args : list Value) (w w1 w2 : World) :
    invoke Init task a w = Returned true w1 ->
    Succeed task Is args w1 w2 ->
    Succeed task (Init :: Is) (a :: args) w w2.

(** [FirstFailure Is task args w w']: some initializer of [Is] returns
    [false], leaving [w'], after all those declared before it succeeded in
    order; nothing is said of those declared after it. *)
Definition FirstFailure (task : Z) (Is : list Initializer) (args : list Value)
    (w w' : World) : Prop :=
  exists (before : list Initializer) (Init : Initializer) (after : list Initializer)
         (args_before : list Value) (a : Value) (args_after : list Value) (w1 : World),
    Is = before ++ Init :: after
    /\ args = args_before ++ a :: args_after
    /\ Succeed task before args_before w w1
    /\ invoke Init task a w1 = Returned false w'.

Lemma fold_and_true (task : Z) (Is : list Initializer) :
  forall args w w',
    arguments_match Is args = true ->
    (fold_and Is task args w = Returned true w' <-> Succeed task Is args w w').
Proof.
  induction Is as [|Init Is IH]; intros [|a args] w w' Hm; cbn in Hm; try discriminate.
  - cbn. unfold ret. split.
    + intros E. injection E as <-. constructor.
    + intros S. inversion S; subst. reflexivity.
  - apply andb_prop in Hm as [_ Hm]. cbn. unfold bind. split.
    + destruct (invoke Init task a w) as [ok w1|d w1|] eqn:E;
        [destruct ok|..]; try discriminate.
      intros F. econstructor; [eassumption|]. now apply IH.
    + intros S. inversion S; subst.
      match goal with E : invoke _ _ _ _ = _ |- _ => rewrite E end.
      now apply IH.
Qed.

Lemma fold_and_false (task : Z) (Is : list Initializer) :
  forall args w w',
    arguments_match Is args = true ->
    (fold_and Is task args w = Returned false w' <-> FirstFailure task Is args w w').
Proof.
  induction Is as [|Init Is IH]; intros [|a args] w w' Hm; cbn in Hm; try discriminate.
  - cbn. unfold ret. split; [discriminate|].
    intros (before & I0 & after & ab & a0 & aa & w1 & E & _).
    destruct before; discriminate.
  - apply andb_prop in Hm as [_ Hm]. cbn. unfold bind. split.
    + destruct (invoke Init task a w) as [ok w1|d w1|] eqn:E;
        [destruct ok|..]; try discriminate.
      * intros F. apply IH in F; [|assumption].
        destruct F as (before & I0 & after & ab & a0 & aa & w2 & -> & -> & S & F).
        exists (Init :: before), I0, after, (a :: ab), a0, aa, w2.
        repeat split; try assumption. econstructor; eassumption.
      * unfold ret. intros F. injection F as <-.
        exists [], Init, Is, [], a, args, w.
        repeat split; try assumption. constructor.
    + intros (before & I0 & after & ab & a0 & aa & w2 & EI & Ea & S & F).
      inversion S; subst; cbn in EI, Ea;
        injection EI as E1 E2; injection Ea as E3 E4; subst.
      * rewrite F. reflexivity.
      * match goal with E : invoke _ _ _ _ = Returned true _ |- _ => rewrite E end.
        apply IH; [assumption|].
        eexists _, _, _, _, _, _, _. repeat split; eassumption.
Qed.

(** C8.  For arguments that fit the initializers,
    [TaskInitializerBuilderWithArgs] returns [true] exactly when every
    initializer, invoked in declaration order on the new task, returned
    [true]; it returns [false] exactly when one of them returned [false]
    after all before it returned [true], and then the state is the one that
    initializer left: those declared after it are not invoked. *)
Theorem TaskInitializerBuilderWithArgs_stops_at_first_false
    (Is : list Initializer) (task : Z) (args : list Value) (w : World) :
  arguments_match Is args = true ->
  forall w',
    (TaskInitializerBuilderWithArgs Is task args w = Returned true w'
       <-> Succeed task Is args w w')
    /\ (TaskInitializerBuilderWithArgs Is task args w = Returned false w'
       <-> FirstFailure task Is args w w').
Proof.
  intros Hm w'. unfold TaskInitializerBuilderWithArgs. rewrite Hm. split.
  - now apply fold_and_true.
  - now apply fold_and_false.
Qed.

End InitializerProperties.

(** ** [create_thread], the in-kernel form *)

(** What the routine relies on from a task controller, for a measure [size]
    of its pool: a failed allocation leaves the size alone, and releasing the
    block an allocation gave restores the size from before it. *)
Class ControllerContract `{KernelObjects}
    (C : TaskController) (size : Pool -> nat) : Prop := {
  allocate_nullptr :
    forall p p', allocate C p = (0, p') -> size p' = size p;
  release_allocate :
    forall p newTask p',
      allocate C p = (newTask, p') -> newTask <> 0 ->
      size (release C newTask p') = size p
}.

Section CreateThreadProperties.
Context `{A : Architecture} {Sch : Scheduler} {SS : StackSupport}.

Lemma kernel_return_value_written
    (L : LawfulStackSupport SS) (task retVal : Z) (w : World) :
  syscallKernelReturnValue
    (getExecutionContext task (setSyscallKernelReturnValue task retVal w)) = retVal.
Proof.
  unfold getExecutionContext, setSyscallKernelReturnValue.
  rewrite getStackPointer_with_context. cbn. now rewrite update_eq.
Qed.

(** C3.  When [allocate()] returns [nullptr], or the initializers of a newly
    allocated block return [false], the in-kernel form returns the calling
    task itself, the calling task's kernel return value is [-1], the
    scheduler is not asked, and the pool is what [allocate] left (no block was
    given) or that with the new block released; by the controller's contract
    its size is the one from before the call. *)
Theorem create_thread_recoverable_failure
    (L : LawfulStackSupport SS)
    (C : TaskController) (size : Pool -> nat) (Con : ControllerContract C size)
    (Is : list Initializer) (task : Z) (args : list Value) (k : Kernel) :
  arguments_match Is args = true ->
  let newTask := fst (allocate C (pool k)) in
  let p := snd (allocate C (pool k)) in
  newTask = 0
  \/ (exists w', TaskInitializerBuilderWithArgs Is newTask args (world k) = Returned false w') ->
  exists k',
    ServiceRoutineBuilder C Is task args k = Returned task k'
    /\ syscallKernelReturnValue (getExecutionContext task (world k')) = -1
    /\ pool k' = (if newTask =? 0 then p else release C newTask p)
    /\ size (pool k') = size (pool k)
    /\ sched k' = sched k.
Proof.
  intros Hm newTask p Hfail. subst newTask p.
  unfold ServiceRoutineBuilder, controller_allocate, controller_release.
  rewrite Hm. cbn [negb]. unfold_monad.
  destruct (allocate C (pool k)) as [newTask p] eqn:Ea. cbn [fst snd] in *.
  destruct (newTask =? 0) eqn:E0.
  - apply Z.eqb_eq in E0. subst newTask.
    eexists. split; [reflexivity|]. cbn. repeat split.
    + apply kernel_return_value_written, L.
    + eapply allocate_nullptr; eassumption.
  - apply Z.eqb_neq in E0.
    destruct Hfail as [?|[w' Hf]]; [contradiction|].
    cbn [world with_pool]. rewrite Hf. cbn [negb].
    eexists. split; [reflexivity|]. cbn. repeat split.
    + apply kernel_return_value_written, L.
    + eapply release_allocate; eassumption.
Qed.

(** The initializers that claim C10 names. *)
Definition canonical (Init : Initializer) : Prop :=
  Init = AssignDedicatedRecyclableStackWithSize
  \/ Init = AssignUniqueIdentifier
  \/ Init = AssignPriority
  \/ Init = SetupExecutionContext.

Lemma canonical_never_false (Init : Initializer) (task : Z) (a : Value) (w w' : World) :
  canonical Init -> invoke Init task a w <> Returned false w'.
Proof.
  intros [-> | [-> | [-> | ->]]]; destruct a; cbn; unfold_monad; try discriminate.
  destruct (getStackPointer task w =? 0); cbn; discriminate.
Qed.

Lemma canonical_fold_never_false (Is : list Initializer) (task : Z) :
  Forall canonical Is ->
  forall args w w', fold_and Is task args w <> Returned false w'.
Proof.
  induction 1 as [|Init Is Hc _ IH]; intros [|a args] w w'; cbn; try discriminate.
  unfold bind.
  destruct (invoke Init task a w) as [ok w1|d w1|] eqn:E; try discriminate.
  destruct ok.
  - apply IH.
  - exfalso. eapply canonical_never_false; eassumption.
Qed.

(** C10.  [AssignDedicatedRecyclableStackWithSize], [AssignUniqueIdentifier]
    and [AssignPriority] return [true] for every task and argument, and
    [SetupExecutionContext] does when the task's stack pointer is not
    [nullptr]; a list of these four never makes
    [TaskInitializerBuilderWithArgs] return [false]; so once [allocate()] has
    given a block, every run of the in-kernel form that returns is the
    successful one: the next task is the scheduler's answer and the state is
    the one the initializers left, nothing released and no error written. *)
Theorem canonical_initializers_cannot_fail (task : Z) (w : World) :
  (forall first second, exists w',
      invoke AssignDedicatedRecyclableStackWithSize task (std_pair first second) w
        = Returned true w')
  /\ (forall identifier, exists w',
      invoke AssignUniqueIdentifier task (word identifier) w = Returned true w')
  /\ (forall priority, exists w',
      invoke AssignPriority task (word priority) w = Returned true w')
  /\ (forall entryPoint, getStackPointer task w <> 0 -> exists w',
      invoke SetupExecutionContext task (word entryPoint) w = Returned true w')
  /\ (forall Is args w', Forall canonical Is ->
      TaskInitializerBuilderWithArgs Is task args w <> Returned false w')
  /\ (forall C Is args (k : Kernel) next k',
      Forall canonical Is ->
      fst (allocate C (pool k)) <> 0 ->
      ServiceRoutineBuilder C Is task args k = Returned next k' ->
      let newTask := fst (allocate C (pool k)) in
      exists w',
        TaskInitializerBuilderWithArgs Is newTask args (world k) = Returned true w'
        /\ next = fst (onTaskCreated w' task newTask (sched k))
        /\ k' = mkKernel w' (snd (allocate C (pool k)))
                  (snd (onTaskCreated w' task newTask (sched k))) (calls k)).
Proof.
  repeat split.
  - intros. eexists. reflexivity.
  - intros. eexists. reflexivity.
  - intros. eexists. reflexivity.
  - intros entryPoint Hsp. cbn. unfold_monad.
    apply Z.eqb_neq in Hsp. rewrite Hsp. cbn. eexists. reflexivity.
  - intros Is args w' Hc. unfold TaskInitializerBuilderWithArgs.
    destruct (arguments_match Is args); [|discriminate].
    now apply canonical_fold_never_false.
  - intros C Is args k next k' Hc Ha. cbn zeta.
    unfold ServiceRoutineBuilder, controller_allocate, controller_release,
      scheduler_onTaskCreated.
    destruct (arguments_match Is args) eqn:Hm; cbn [negb]; [|discriminate].
    unfold_monad.
    destruct (allocate C (pool k)) as [newTask p] eqn:Ea. cbn [fst snd] in *.
    apply Z.eqb_neq in Ha. rewrite Ha. cbn [world with_pool].
    destruct (TaskInitializerBuilderWithArgs Is newTask args (world k))
      as [ok w1|d w1|] eqn:Et; try discriminate.
    destruct ok; cbn [negb].
    + destruct (onTaskCreated _ task newTask _) as [t s] eqn:Eo.
      cbn in Eo. intros E. injection E as <- <-.
      exists w1. rewrite Eo. repeat split.
    + exfalso. revert Et. unfold TaskInitializerBuilderWithArgs. rewrite Hm.
      now apply canonical_fold_never_false.
Qed.

End CreateThreadProperties.

(** ** The dispatcher loop *)

Section DispatcherProperties.
Context `{A : Architecture}.

(** [Injected Js prev next k k']: every injector of [Js] ran on
    [(prev, next)] and returned, in declaration order, each from the state
    the one before left; the last left [k']. *)
Inductive Injected (prev next : Z)
  : list CodeInjector -> Kernel -> Kernel -> Prop :=
| Injected_nil (k : Kernel) : Injected prev next [] k k
| Injected_cons (J : CodeInjector) (Js : list CodeInjector) (k k1 k2 : Kernel) :
    J prev next k = Returned tt k1 ->
    Injected prev next Js k1 k2 ->
    Injected prev next (J :: Js) k k2.

Lemma inject_Injected (prev next : Z) (Js : list CodeInjector) :
  forall k k', inject Js prev next k = Returned tt k' <-> Injected prev next Js k k'.
Proof.
  induction Js as [|J Js IH]; intros k k'; cbn.
  - unfold ret. split.
    + intros E. injection E as <-. constructor.
    + intros I. inversion I; subst. reflexivity.
  - unfold bind. split.
    + destruct (J prev next k) as [[] k1|d k1|] eqn:E; try discriminate.
      intros F. econstructor; [eassumption|]. now apply IH.
    + intros I. inversion I; subst.
      match goal with E : J _ _ _ = _ |- _ => rewrite E end.
      now apply IH.
Qed.

(** C7.  One turn of the loop from [(prev, next)] returns exactly when the
    injectors, run on [(prev, next)] in declaration order, all return, the
    context switch from the state they left yields [identifier], and the
    routine the mapper gives for [identifier] returns some [r] for the
    interrupted task [next]; the dispatcher then holds [(next, r)].  For a
    routine that returns the task it was given it holds [(next, next)]. *)
Theorem dispatcher_iteration
    (Injector : list CodeInjector) (ServiceRoutineMapper : RoutineMapper)
    (this : Dispatcher) (k : Kernel) :
  (forall this' k3,
      iteration Injector ServiceRoutineMapper this k = Returned this' k3
      <-> exists k1 k2 identifier r,
            Injected (prev this) (next this) Injector k k1
            /\ switch (prev this) (next this) k1 = Returned identifier k2
            /\ identifier = fst (switchTask (prev this) (next this) (world k1))
            /\ calls k2 = calls k1 ++ [SwitchTask (prev this) (next this)]
            /\ ServiceRoutineMapper identifier (next this) k2 = Returned r k3
            /\ this' = mkDispatcher (next this) r)
  /\ (forall k1 k2 identifier k3,
      Injected (prev this) (next this) Injector k k1 ->
      switch (prev this) (next this) k1 = Returned identifier k2 ->
      ServiceRoutineMapper identifier (next this) k2 = Returned (next this) k3 ->
      iteration Injector ServiceRoutineMapper this k
        = Returned (mkDispatcher (next this) (next this)) k3).
Proof.
  assert (Run : forall k1 k2 identifier r k3,
             Injected (prev this) (next this) Injector k k1 ->
             switch (prev this) (next this) k1 = Returned identifier k2 ->
             ServiceRoutineMapper identifier (next this) k2 = Returned r k3 ->
             iteration Injector ServiceRoutineMapper this k
               = Returned (mkDispatcher (next this) r) k3).
  { intros k1 k2 identifier r k3 Hi Hs Hr.
    unfold iteration. unfold bind at 1.
    apply inject_Injected in Hi. rewrite Hi.
    unfold bind at 1. rewrite Hs. cbn [prev next].
    unfold bind, ret. rewrite Hr. reflexivity. }
  split.
  - intros this' k3. split.
    + unfold iteration. unfold bind at 1.
      destruct (inject Injector (prev this) (next this) k) as [[] k1|d k1|] eqn:Hi;
        try discriminate.
      apply inject_Injected in Hi.
      unfold bind at 1.
      destruct (switch (prev this) (next this) k1) as [identifier k2|d k2|] eqn:Hs;
        try discriminate.
      cbn [prev next]. unfold bind, ret.
      destruct (ServiceRoutineMapper identifier (next this) k2) as [r k3'|d k3'|] eqn:Hr;
        try discriminate.
      intros E. injection E as <- <-.
      exists k1, k2, identifier, r. repeat split; try assumption.
      * unfold switch in Hs.
        destruct (switchTask (prev this) (next this) (world k1)) as [i w].
        now injection Hs as <- <-.
      * unfold switch in Hs.
        destruct (switchTask (prev this) (next this) (world k1)) as [i w].
        now injection Hs as <- <-.
    + intros (k1 & k2 & identifier & r & Hi & Hs & _ & _ & Hr & ->).
      eapply Run; eassumption.
  - intros k1 k2 identifier k3 Hi Hs Hr. eapply Run; eassumption.
Qed.

End DispatcherProperties.

(** ** [create_thread], the system call form *)

Section SyscallFormProperties.
Context `{A : Architecture} {Sch : Scheduler} {SS : StackSupport}.

(** Successive [va_arg] reads of the given types from one cursor. *)
Fixpoint va_args (types : list ArgType) (ap : va_list) : list Value * va_list :=
  match types with
  | [] => ([], ap)
  | ty :: types' =>
      let (v, ap1) := va_arg ty ap in
      let (vs, ap2) := va_args types' ap1 in
      (v :: vs, ap2)
  end.

(** The lambda [collector] reads one value per initializer from the
    task's argument cursor, in declaration order and each with its
    initializer's [Arg] type: the [k]-th value collected is the [k]-th the
    cursor yields.  It returns before anything else runs, the task's stack
    pointer is where it was and the cursor is left after the last value. *)
Lemma collector_reads_in_declaration_order
    (L : LawfulStackSupport SS) (Is : list Initializer) (task : Z) :
  forall w,
    let ap := syscallArgumentList (getExecutionContext task w) in
    exists w',
      collector Is task w = Returned (fst (va_args (map Arg Is) ap)) w'
      /\ List.length (fst (va_args (map Arg Is) ap)) = List.length Is
      /\ getStackPointer task w' = getStackPointer task w
      /\ syscallArgumentList (getExecutionContext task w') = snd (va_args (map Arg Is) ap).
Proof.
  induction Is as [|Init Is IH]; intros w ap; subst ap.
  - exists w. cbn. repeat split.
  - cbn [collector map va_args]. unfold bind at 1.
    unfold getSyscallArgument at 1. unfold getExecutionContext at 1 2 3.
    destruct (va_arg (Arg Init) _) as [v ap1] eqn:Ev. cbv beta iota zeta.
    match goal with
    | |- context [with_context ?sp ?c w] => set (w1 := with_context sp c w)
    end.
    destruct (IH w1) as (w' & Ec & El & Esp & Eap).
    assert (Esp1 : getStackPointer task w1 = getStackPointer task w).
    { subst w1. apply getStackPointer_with_context. }
    assert (Eap1 : syscallArgumentList (getExecutionContext task w1) = ap1).
    { unfold getExecutionContext. rewrite Esp1. subst w1. cbn.
      now rewrite update_eq. }
    rewrite Eap1 in Ec, El, Eap.
    destruct (va_args (map Arg Is) ap1) as [vs ap2] eqn:Evs. cbn [fst snd] in *.
    exists w'. unfold bind, ret. rewrite Ec. cbn.
    repeat split; try congruence.
    unfold getExecutionContext in Eap. exact Eap.
Qed.

End SyscallFormProperties.

Section SyscallFormDefect.
Context `{A : Architecture} {Sch : Scheduler} {SS : StackSupport}.

Lemma collector_returns (Is : list Initializer) (task : Z) :
  forall w, exists arguments w',
    collector Is task w = Returned arguments w'
    /\ List.length arguments = List.length Is.
Proof.
  induction Is as [|Init Is IH]; intros w; cbn.
  - exists [], w. split; reflexivity.
  - unfold bind at 1. unfold getSyscallArgument at 1.
    destruct (va_arg (Arg Init) _) as [v ap1].
    match goal with
    | |- context [with_context ?sp ?c w] => destruct (IH (with_context sp c w))
          as (arguments & w' & Ec & El)
    end.
    exists (v :: arguments), w'. unfold bind, ret. rewrite Ec. cbn.
    split; [reflexivity|]. now rewrite El.
Qed.

Lemma initializers_of_length (Types : list ClassType) :
  forall Is, initializers_of Types = Some Is -> List.length Is = List.length Types.
Proof.
  induction Types as [|T Types IH]; intros Is; cbn.
  - intros E. injection E as <-. reflexivity.
  - destruct (as_initializer T); [|discriminate].
    destruct (initializers_of Types) as [Is'|]; [|discriminate].
    intros E. injection E as <-. cbn. now rewrite (IH Is').
Qed.

Lemma arguments_match_length (Is : list Initializer) :
  forall args, arguments_match Is args = true -> List.length Is = List.length args.
Proof.
  induction Is as [|Init Is IH]; intros [|a args]; cbn; try discriminate.
  - reflexivity.
  - intros E. apply andb_prop in E as [_ E]. now rewrite (IH args).
Qed.

(** The template-id the system call form names has one argument fewer than
    the form itself: whatever the pack, as many arguments as the pack has
    types never fit it. *)
Lemma ServiceRoutineBuilder_of_rejects_own_pack
    (Types : list ClassType) (task : Z) (args : list Value) (k : Kernel) :
  List.length args = List.length Types ->
  ServiceRoutineBuilder_of Types task args k = IllFormed.
Proof.
  intros El. destruct Types as [|T Types]; cbn; [reflexivity|].
  destruct (as_controller T) as [C|]; [|reflexivity].
  destruct (initializers_of Types) as [Is|] eqn:Ei; [|reflexivity].
  unfold execute, ServiceRoutineBuilder.
  destruct (arguments_match Is args) eqn:Hm; [|reflexivity].
  apply arguments_match_length in Hm. apply initializers_of_length in Ei.
  cbn in El. lia.
Qed.

(** For every task controller, every initializer list and every task, the
    system call form has no instantiation. *)
Lemma ServiceRoutineBuilderWithTaskArgs_rejected
    (TaskController : ClassType) (Initializers : list ClassType)
    (task : Z) (k : Kernel) :
  ServiceRoutineBuilderWithTaskArgs TaskController Initializers task k = IllFormed.
Proof.
  unfold ServiceRoutineBuilderWithTaskArgs.
  destruct (as_controller TaskController) as [C|]; [|reflexivity].
  destruct (initializers_of Initializers) as [Is|] eqn:Ei; [|reflexivity].
  unfold bind, in_world, zoom.
  destruct (collector_returns Is task (world k)) as (arguments & w' & Ec & El).
  rewrite Ec.
  apply ServiceRoutineBuilder_of_rejects_own_pack.
  rewrite El. now apply initializers_of_length.
Qed.

(** C1, what the code does.  The system call form hands the collected
    arguments to [ServiceRoutineBuilder<Task, TaskScheduler,
    Initializers...>]: there the first initializer stands in the task
    controller's place, so the values read for [I1, ..., In] are offered to
    [I2, ..., In], one initializer fewer than there are values.  For every
    task controller, every initializer list and every task the instantiation
    is refused, and no initializer receives the value read for it. *)
Theorem syscall_form_misplaces_arguments
    (TaskController : ClassType) (Initializers : list ClassType)
    (task : Z) (k : Kernel) :
  (forall First Rest C Is args,
      Initializers = First :: Rest ->
      as_controller First = Some C ->
      initializers_of Rest = Some Is ->
      ServiceRoutineBuilder_of Initializers task args k
        = ServiceRoutineBuilder C Is task args k)
  /\ ServiceRoutineBuilderWithTaskArgs TaskController Initializers task k = IllFormed
  /\ forall next k',
       ServiceRoutineBuilderWithTaskArgs TaskController Initializers task k
         <> Returned next k'.
Proof.
  split; [|split].
  - intros First Rest C Is args -> Ec Ei. cbn. now rewrite Ec, Ei.
  - apply ServiceRoutineBuilderWithTaskArgs_rejected.
  - intros next k'. rewrite ServiceRoutineBuilderWithTaskArgs_rejected. discriminate.
Qed.

End SyscallFormDefect.

(** * Further properties of the components and routines *)

Lemma update_other {A : Type} (f : Z -> A) (k x : Z) (v : A) :
  x <> k -> update f k v x = f x.
Proof. unfold update. intros N. apply Z.eqb_neq in N. now rewrite N. Qed.

(** ** Task control block components *)

Section ComponentProperties.
Context `{KernelObjects}.

(** [w'] differs from [w] at most in the control block of [task]. *)
Definition only_task_changed (task : Z) (w w' : World) : Prop :=
  SharedTaskStackPointer w' = SharedTaskStackPointer w
  /\ context_at w' = context_at w
  /\ heap w' = heap w
  /\ forall other, other <> task -> tcb w' other = tcb w other.

Lemma with_tcb_only_task (task : Z) (t : TaskControlBlock) (w : World) :
  only_task_changed task w (with_tcb task t w).
Proof.
  repeat split. intros other N. cbn. now apply update_other.
Qed.

(** The setters of the identifier, priority and handler components: each
    is read back by its getter, leaves the other fields of the task's
    control block as they were, and touches no other control block, no saved
    context, the shared stack pointer and the heap. *)
Theorem component_setters_write_one_field (task v : Z) (w : World) :
  (getUniqueIdentifier task (setUniqueIdentifier task v w) = v
   /\ getPriority task (setUniqueIdentifier task v w) = getPriority task w
   /\ getHandler task (setUniqueIdentifier task v w) = getHandler task w
   /\ getPrivateStack task (setUniqueIdentifier task v w) = getPrivateStack task w
   /\ stackPointer (tcb (setUniqueIdentifier task v w) task) = stackPointer (tcb w task)
   /\ only_task_changed task w (setUniqueIdentifier task v w))
  /\ (getPriority task (setPriority task v w) = v
   /\ getUniqueIdentifier task (setPriority task v w) = getUniqueIdentifier task w
   /\ getHandler task (setPriority task v w) = getHandler task w
   /\ getPrivateStack task (setPriority task v w) = getPrivateStack task w
   /\ stackPointer (tcb (setPriority task v w) task) = stackPointer (tcb w task)
   /\ only_task_changed task w (setPriority task v w))
  /\ (getHandler task (setHandler task v w) = v
   /\ getUniqueIdentifier task (setHandler task v w) = getUniqueIdentifier task w
   /\ getPriority task (setHandler task v w) = getPriority task w
   /\ getPrivateStack task (setHandler task v w) = getPrivateStack task w
   /\ stackPointer (tcb (setHandler task v w) task) = stackPointer (tcb w task)
   /\ only_task_changed task w (setHandler task v w)).
Proof.
  unfold getUniqueIdentifier, getPriority, getHandler, getPrivateStack,
    setUniqueIdentifier, setPriority, setHandler.
  repeat match goal with
         | |- _ /\ _ => split
         | |- only_task_changed _ _ _ => apply with_tcb_only_task
         | |- _ => cbn; rewrite update_eq; reflexivity
         end.
Qed.

(** The two stack components.  With [SharedStackSupport] a stack pointer
    written through one task is what every task reads, and no control block
    changes; with [DedicatedNonRecyclableStackSupport] it is read back
    through the task it was written to, every other task reads what it read
    before, and the shared cell is not written. *)
Theorem stack_pointer_shared_or_dedicated (task other p : Z) (w : World) :
  (getStackPointer (StackSupport := SharedStackSupport) other
     (setStackPointer (StackSupport := SharedStackSupport) task p w) = p
   /\ tcb (setStackPointer (StackSupport := SharedStackSupport) task p w) = tcb w)
  /\ (getStackPointer (StackSupport := DedicatedNonRecyclableStackSupport) task
        (setStackPointer (StackSupport := DedicatedNonRecyclableStackSupport) task p w) = p
      /\ (other <> task ->
          getStackPointer (StackSupport := DedicatedNonRecyclableStackSupport) other
            (setStackPointer (StackSupport := DedicatedNonRecyclableStackSupport) task p w)
          = getStackPointer (StackSupport := DedicatedNonRecyclableStackSupport) other w)
      /\ only_task_changed task w
           (setStackPointer (StackSupport := DedicatedNonRecyclableStackSupport) task p w)).
Proof.
  split; [split; reflexivity|]. cbn. split; [|split].
  - now rewrite update_eq.
  - intros N. now rewrite update_other.
  - apply with_tcb_only_task.
Qed.

End ComponentProperties.

(** ** Stack initializers *)

Ltac read_back_fields :=
  unfold getPrivateStack, only_task_changed; cbn;
  repeat rewrite update_eq; cbn;
  repeat split; try lia;
  intros; repeat rewrite update_other by assumption; reflexivity.

Section StackInitializerProperties.
Context `{A : Architecture}.

#[local] Existing Instance DedicatedNonRecyclableStackSupport.

(** [AssignDedicatedStack]: [operator()] is a template over the length [N]
    of the array it takes by reference. *)
Definition AssignDedicatedStack (N : Z) (task stack : Z) : M World bool :=
  modify (setPrivateStack task stack) ;;
  modify (setStackPointer task (stack + N)) ;;
  ret true.

(** The stack initializers on a task with a dedicated stack.  The two
    allocating ones return [false] exactly when [new] gives [nullptr], and
    then nothing but the heap has changed; when they return [true] the stack
    pointer is the end of the block, and the recyclable one has recorded the
    block's start.  The two assigning ones always return [true], agree with
    each other, and record start and end of the stack they are given.  After
    each recyclable one the stack pointer lies the stack's size above its
    start; no other task's control block is touched. *)
Theorem stack_initializers_set_base_and_top (task size first : Z) (w : World) :
  let block := fst (operator_new size (heap w)) in
  let h := snd (operator_new size (heap w)) in
  ((block = 0 ->
    invoke AllocateDedicatedStack task (word size) w = Returned false (with_heap h w))
   /\ (block <> 0 -> exists w',
        invoke AllocateDedicatedStack task (word size) w = Returned true w'
        /\ getStackPointer task w' = block + size
        /\ getPrivateStack task w' = getPrivateStack task w
        /\ only_task_changed task (with_heap h w) w'))
  /\ ((block = 0 ->
       invoke AllocateDedicatedRecyclableStack task (word size) w
         = Returned false (with_heap h w))
      /\ (block <> 0 -> exists w',
           invoke AllocateDedicatedRecyclableStack task (word size) w = Returned true w'
           /\ getPrivateStack task w' = block
           /\ getStackPointer task w' - getPrivateStack task w' = size
           /\ only_task_changed task (with_heap h w) w'))
  /\ (exists w',
       invoke AssignDedicatedRecyclableStackWithSize task (std_pair first size) w
         = Returned true w'
       /\ AssignDedicatedStack size task first w = Returned true w'
       /\ getPrivateStack task w' = first
       /\ getStackPointer task w' - getPrivateStack task w' = size
       /\ only_task_changed task w w').
Proof.
  intros block h. subst block h.
  cbn [invoke AllocateDedicatedStack AllocateDedicatedRecyclableStack
         AssignDedicatedRecyclableStackWithSize].
  unfold AssignDedicatedStack, new_UInt8_array. unfold_monad.
  destruct (operator_new size (heap w)) as [block h]. cbn [fst snd].
  split; [|split].
  - split.
    + intros ->. reflexivity.
    + intros N. apply Z.eqb_neq in N. rewrite N.
      eexists. split; [reflexivity|]. read_back_fields.
  - split.
    + intros ->. reflexivity.
    + intros N. apply Z.eqb_neq in N. rewrite N.
      eexists. split; [reflexivity|]. read_back_fields.
  - eexists. split; [reflexivity|]. split; [reflexivity|]. read_back_fields.
Qed.

End StackInitializerProperties.

(** ** [SetupExecutionContext] and the order of initializers *)

Section SetupProperties.
Context `{A : Architecture} {SS : StackSupport}.

(** [SetupExecutionContext] on a task without a stack is fatal, and the task
    context builder is not reached; so the builder halts when the
    initializer is declared before the one that assigns the stack, the stack
    is then never assigned, and it succeeds, with the context built on the
    assigned stack, when it is declared after it. *)
Theorem setup_needs_the_stack_first
    (L : LawfulStackSupport SS) (task first second entryPoint : Z) (w : World) :
  getStackPointer task w = 0 ->
  first + second <> 0 ->
  invoke SetupExecutionContext task (word entryPoint) w
    = Halted "No stack is assigned to the given task." w
  /\ TaskInitializerBuilderWithArgs
       [SetupExecutionContext; AssignDedicatedRecyclableStackWithSize]
       task [word entryPoint; std_pair first second] w
     = Halted "No stack is assigned to the given task." w
  /\ TaskInitializerBuilderWithArgs
       [AssignDedicatedRecyclableStackWithSize; SetupExecutionContext]
       task [std_pair first second; word entryPoint] w
     = Returned true
         (TaskContextBuilder task entryPoint
            (setStackPointer task (first + second) (setPrivateStack task first w))).
Proof.
  intros Hsp Hn.
  assert (E : invoke SetupExecutionContext task (word entryPoint) w
              = Halted "No stack is assigned to the given task." w).
  { cbn. unfold_monad. rewrite Hsp. reflexivity. }
  split; [exact E|]. split.
  - unfold TaskInitializerBuilderWithArgs. cbn [arguments_match has_type Arg
      SetupExecutionContext AssignDedicatedRecyclableStackWithSize andb].
    cbn [fold_and]. unfold bind at 1. now rewrite E.
  - unfold TaskInitializerBuilderWithArgs. cbn. unfold_monad.
    rewrite getStackPointer_setStackPointer.
    apply Z.eqb_neq in Hn. rewrite Hn. reflexivity.
Qed.

End SetupProperties.

(** ** The in-kernel form when a block was allocated *)

Section CreateThreadOutcomes.
Context `{A : Architecture} {Sch : Scheduler} {SS : StackSupport}.

(** When [allocate()] gives a block and the arguments fit: if the
    initializers return [true], the in-kernel form returns what
    [onTaskCreated(task, newTask)] answers on the state the initializers
    left, the block stays allocated and no error is written; if an
    initializer halts, the routine halts with its diagnostic, the block is
    not released, no error is written and the scheduler is not asked. *)
Theorem create_thread_success_or_halt
    (C : TaskController) (Is : list Initializer)
    (task : Z) (args : list Value) (k : Kernel) :
  arguments_match Is args = true ->
  fst (allocate C (pool k)) <> 0 ->
  let newTask := fst (allocate C (pool k)) in
  let p := snd (allocate C (pool k)) in
  (forall w',
      TaskInitializerBuilderWithArgs Is newTask args (world k) = Returned true w' ->
      ServiceRoutineBuilder C Is task args k
        = Returned (fst (onTaskCreated w' task newTask (sched k)))
            (mkKernel w' p (snd (onTaskCreated w' task newTask (sched k))) (calls k)))
  /\ (forall diagnostic w',
      TaskInitializerBuilderWithArgs Is newTask args (world k) = Halted diagnostic w' ->
      ServiceRoutineBuilder C Is task args k
        = Halted diagnostic (mkKernel w' p (sched k) (calls k))).
Proof.
  intros Hm Ha newTask p. subst newTask p.
  unfold ServiceRoutineBuilder, controller_allocate, controller_release,
    scheduler_onTaskCreated.
  rewrite Hm. cbn [negb]. unfold_monad.
  destruct (allocate C (pool k)) as [newTask p]. cbn [fst snd] in *.
  apply Z.eqb_neq in Ha. rewrite Ha. cbn [world with_pool].
  split.
  - intros w' E. rewrite E. cbn.
    destruct (onTaskCreated w' task newTask (sched k)) as [t s]. reflexivity.
  - intros d w' E. rewrite E. reflexivity.
Qed.

End CreateThreadOutcomes.

(** ** The event table *)

Section EventTableProperties.
Context `{KernelObjects}.


End EventTableProperties.

(** ** What [send_event] leaves alone *)

Section SendEventFrame.
Context `{KernelObjects} {Sch : Scheduler} {SS : StackSupport}.


End SendEventFrame.

(** ** The two injectors compared *)

Section InjectorComparison.
Context `{A : Architecture}.

(** On the same pair of tasks: if [next] is [prev], neither injector does
    anything; if [next] has the strictly greater priority, it is another
    task and both call the context builder; if it is another task without
    the greater priority, only the cooperative injector calls it. *)
Theorem injectors_compared (prev next : Z) (k : Kernel) :
  (next = prev ->
     PreemptiveEventHandlerTrampolineContextInjector prev next k = Returned tt k
     /\ CooperativeEventHandlerTrampolineContextInjector prev next k = Returned tt k)
  /\ (getPriority next (world k) > getPriority prev (world k) ->
     next <> prev
     /\ PreemptiveEventHandlerTrampolineContextInjector prev next k
        = Returned tt (built prev next k)
     /\ CooperativeEventHandlerTrampolineContextInjector prev next k
        = Returned tt (built prev next k))
  /\ (next <> prev -> getPriority next (world k) <= getPriority prev (world k) ->
     PreemptiveEventHandlerTrampolineContextInjector prev next k = Returned tt k
     /\ CooperativeEventHandlerTrampolineContextInjector prev next k
        = Returned tt (built prev next k)).
Proof.
  unfold PreemptiveEventHandlerTrampolineContextInjector,
    CooperativeEventHandlerTrampolineContextInjector, invoke_ContextBuilder,
    task_gt, built.
  unfold_monad.
  split; [|split].
  - intros ->. rewrite Z.ltb_irrefl, Z.eqb_refl. split; reflexivity.
  - intros Hp.
    assert (N : next <> prev) by (intros ->; lia).
    split; [exact N|].
    apply Z.eqb_neq in N. rewrite N.
    assert (Hlt : (getPriority prev (world k) <? getPriority next (world k)) = true)
      by (apply Z.ltb_lt; lia).
    rewrite Hlt. split; reflexivity.
  - intros N Hp. apply Z.eqb_neq in N. rewrite N.
    assert (Hlt : (getPriority prev (world k) <? getPriority next (world k)) = false)
      by (apply Z.ltb_ge; lia).
    rewrite Hlt. split; reflexivity.
Qed.

End InjectorComparison.

(** ** Several turns of the dispatcher *)

Section DispatcherTurns.
Context `{A : Architecture}.

(** The context switches among the calls made, oldest first. *)
Definition switches (cs : list Call) : list (Z * Z) :=
  flat_map (fun c => match c with
                     | SwitchTask p n => [(p, n)]
                     | BuildContext _ _ => []
                     end) cs.

(** [Chain p n l p' n']: from the dispatcher state [(p, n)] the switches [l]
    lead to [(p', n')]: each switch is made on the state of its turn, and the
    next turn starts with the task just resumed as [prev]. *)
Inductive Chain : Z -> Z -> list (Z * Z) -> Z -> Z -> Prop :=
| Chain_done (p n : Z) : Chain p n [] p n
| Chain_turn (p n r : Z) (l : list (Z * Z)) (p' n' : Z) :
    Chain n r l p' n' -> Chain p n ((p, n) :: l) p' n'.

(** Of two switches in a row, the second leaves the task the first
    resumed. *)
Definition linked (l : list (Z * Z)) : Prop :=
  forall l1 a b l2, l = l1 ++ a :: b :: l2 -> fst b = snd a.

Lemma Chain_head (p n : Z) (l : list (Z * Z)) (p' n' : Z) :
  Chain p n l p' n' -> forall a l', l = a :: l' -> a = (p, n).
Proof.
  intros C a l' E. destruct C; [discriminate|]. now injection E as <- _.
Qed.

Lemma Chain_linked (p n : Z) (l : list (Z * Z)) (p' n' : Z) :
  Chain p n l p' n' -> linked l.
Proof.
  induction 1 as [p n|p n r l p' n' C IH]; intros l1 a b l2 E.
  - destruct l1; discriminate.
  - destruct l1 as [|x l1]; cbn in E.
    + injection E as <- El.
      now rewrite (Chain_head _ _ _ _ _ C _ _ El).
    + injection E as _ El. eapply IH; eassumption.
Qed.

Lemma switches_app (l1 l2 : list Call) :
  switches (l1 ++ l2) = switches l1 ++ switches l2.
Proof. apply flat_map_app. Qed.

(** An injector or routine that makes no context switch of its own. *)
Definition no_switch {T : Type} (c : M Kernel T) : Prop :=
  forall k x k', c k = Returned x k' -> switches (calls k') = switches (calls k).

Lemma inject_no_switch (Js : list CodeInjector) (p n : Z) :
  Forall (fun J => no_switch (J p n)) Js -> no_switch (inject Js p n).
Proof.
  induction 1 as [|J Js HJ _ IH]; intros k x k'; cbn.
  - unfold ret. intros E. now injection E as _ <-.
  - unfold bind.
    destruct (J p n k) as [u k1|d k1|] eqn:E; try discriminate.
    intros F. rewrite (IH _ _ _ F). eapply HJ; eassumption.
Qed.

Lemma iteration_switches_once
    (Js : list CodeInjector) (Mp : RoutineMapper) (d d1 : Dispatcher) (k k1 : Kernel) :
  Forall (fun J => no_switch (J (prev d) (next d))) Js ->
  (forall identifier task, no_switch (Mp identifier task)) ->
  iteration Js Mp d k = Returned d1 k1 ->
  prev d1 = next d
  /\ switches (calls k1) = switches (calls k) ++ [(prev d, next d)].
Proof.
  intros HJ HM. unfold iteration. unfold bind at 1.
  destruct (inject Js (prev d) (next d) k) as [u k0|x k0|] eqn:Ei; try discriminate.
  apply (inject_no_switch _ _ _ HJ) in Ei.
  unfold bind at 1. unfold switch.
  destruct (switchTask (prev d) (next d) (world k0)) as [identifier w].
  cbn [prev next]. unfold bind, ret.
  destruct (Mp identifier (next d) _) as [r k2|x k2|] eqn:Er; try discriminate.
  intros E. injection E as <- <-.
  apply HM in Er. split; [reflexivity|].
  rewrite Er. cbn [calls record_call with_world]. rewrite switches_app, Ei.
  reflexivity.
Qed.

(** When neither the injectors nor the service routines switch tasks
    themselves, [turns] completed turns of the dispatcher make exactly
    [turns] context switches, the first on the dispatcher's initial
    [(prev, next)], and every later one leaves the task the one before it
    resumed; the dispatcher's [prev] is then the task resumed last. *)
Theorem dispatcher_switches_form_a_chain
    (Js : list CodeInjector) (Mp : RoutineMapper) :
  (forall p n, Forall (fun J => no_switch (J p n)) Js) ->
  (forall identifier task, no_switch (Mp identifier task)) ->
  forall (turns : nat) (d d' : Dispatcher) (k k' : Kernel),
    dispatch turns Js Mp d k = Returned d' k' ->
    exists l,
      switches (calls k') = switches (calls k) ++ l
      /\ List.length l = turns
      /\ Chain (prev d) (next d) l (prev d') (next d')
      /\ linked l.
Proof.
  intros HJ HM.
  assert (Main : forall turns d d' k k',
             dispatch turns Js Mp d k = Returned d' k' ->
             exists l,
               switches (calls k') = switches (calls k) ++ l
               /\ List.length l = turns
               /\ Chain (prev d) (next d) l (prev d') (next d')).
  { induction turns as [|turns IH]; intros d d' k k'; cbn.
    - unfold ret. intros E. injection E as <- <-.
      exists []. rewrite app_nil_r. repeat split. constructor.
    - unfold bind.
      destruct (iteration Js Mp d k) as [d1 k1|x k1|] eqn:Ei; try discriminate.
      intros E. apply IH in E. destruct E as (l & Es & El & Ec).
      destruct (iteration_switches_once _ _ _ _ _ _ (HJ _ _) HM Ei) as [Ep E1].
      exists ((prev d, next d) :: l). split; [|split].
      + rewrite Es, E1, <- app_assoc. reflexivity.
      + cbn. now rewrite El.
      + rewrite Ep in Ec. econstructor. exact Ec. }
  intros turns d d' k k' E.
  destruct (Main _ _ _ _ _ E) as (l & Es & El & Ec).
  exists l. repeat split; try assumption. eapply Chain_linked; eassumption.
Qed.

Lemma dispatch_add (Js : list CodeInjector) (Mp : RoutineMapper) (n m : nat) :
  forall d k,
    dispatch (n + m) Js Mp d k
    = match dispatch n Js Mp d k with
      | Returned d1 k1 => dispatch m Js Mp d1 k1
      | Halted x k1 => Halted x k1
      | IllFormed => IllFormed
      end.
Proof.
  induction n as [|n IH]; intros d k; cbn.
  - reflexivity.
  - unfold bind. destruct (iteration Js Mp d k) as [d1 k1|x k1|]; try reflexivity.
    apply IH.
Qed.

(** An unknown service identifier ends the loop for good: if after [n]
    turns the injectors return and the context switch yields an identifier
    that the mapper sends to [UnknownServiceIdentifier], then however many
    more turns are allowed, the dispatcher halts in that turn with the
    routine's diagnostic, and that context switch is the last call made. *)
Theorem unknown_identifier_stops_the_dispatcher
    (Js : list CodeInjector) (Mp : RoutineMapper)
    (n : nat) (d d1 : Dispatcher) (k k1 k2 : Kernel) :
  dispatch n Js Mp d k = Returned d1 k1 ->
  Injected (prev d1) (next d1) Js k1 k2 ->
  Mp (fst (switchTask (prev d1) (next d1) (world k2))) = UnknownServiceIdentifier ->
  forall m, (n < m)%nat ->
    dispatch m Js Mp d k
    = Halted "Unknown system call identifier."
        (record_call (SwitchTask (prev d1) (next d1))
           (with_world (snd (switchTask (prev d1) (next d1) (world k2))) k2)).
Proof.
  intros Hn Hi Hu m Hm.
  replace m with (n + S (m - S n))%nat by lia.
  rewrite dispatch_add, Hn. cbn [dispatch]. unfold bind at 1.
  unfold iteration. unfold bind at 1.
  apply inject_Injected in Hi. rewrite Hi.
  unfold bind at 1. unfold switch.
  destruct (switchTask (prev d1) (next d1) (world k2)) as [identifier w].
  cbn [fst snd prev next] in *. unfold bind. rewrite Hu. reflexivity.
Qed.

End DispatcherTurns.

(** The injectors and service routines of these sources make no context
    switch of their own. *)
Section NoSwitch.
Context `{A : Architecture} {Sch : Scheduler} {SS : StackSupport}.

Lemma in_world_no_switch {T : Type} (c : M World T) : no_switch (in_world c).
Proof.
  intros k x k'. unfold in_world, zoom.
  destruct (c (world k)); try discriminate.
  intros E. now injection E as _ <-.
Qed.

Lemma trampoline_injectors_no_switch (p n : Z) :
  no_switch (PreemptiveEventHandlerTrampolineContextInjector p n)
  /\ no_switch (CooperativeEventHandlerTrampolineContextInjector p n).
Proof.
  split; intros k x k';
    unfold PreemptiveEventHandlerTrampolineContextInjector,
      CooperativeEventHandlerTrampolineContextInjector, invoke_ContextBuilder;
    unfold_monad.
  - destruct (task_gt n p (world k)); intros E; injection E as _ <-.
    + cbn. rewrite switches_app. cbn. now rewrite app_nil_r.
    + reflexivity.
  - destruct (negb (n =? p)); intros E; injection E as _ <-.
    + cbn. rewrite switches_app. cbn. now rewrite app_nil_r.
    + reflexivity.
Qed.

Lemma event_routines_no_switch (TaskMapper : Z -> Z) (task : Z) :
  no_switch (SyscallSendEvent TaskMapper task)
  /\ no_switch (SyscallEventHandlerReturn task)
  /\ no_switch (UnknownServiceIdentifier task).
Proof.
  split; [|split]; intros k x k'.
  - unfold SyscallSendEvent, scheduler_onTaskCreated, getSyscallArgument.
    unfold_monad. cbn.
    match goal with
    | |- context [onTaskCreated ?w task ?n ?s] => destruct (onTaskCreated w task n s)
    end.
    intros E. now injection E as _ <-.
  - unfold SyscallEventHandlerReturn, scheduler_onTaskFinished, getSyscallArgument.
    unfold_monad. cbn.
    match goal with
    | |- context [onTaskFinished ?w task ?s] => destruct (onTaskFinished w task s)
    end.
    intros E. now injection E as _ <-.
  - unfold UnknownServiceIdentifier, pfatal. discriminate.
Qed.

End NoSwitch.

(** * Runs on the concrete kernel *)

Module Runs.
Import Machine.

#[local] Existing Instance objects.
#[local] Existing Instance architecture.
#[local] Existing Instance scheduler.

Definition Dedicated : StackSupport := DedicatedNonRecyclableStackSupport.
Definition Shared : StackSupport := SharedStackSupport.

Lemma FreeList_contract : ControllerContract FreeList (@List.length Z).
Proof.
  split.
  - intros [|t free] p'; cbn.
    + intros E. inversion E. reflexivity.
    + destruct (t =? 0) eqn:Et; intros E; inversion E; subst.
      * reflexivity.
      * discriminate.
  - intros [|t free] newTask p'; cbn.
    + intros E. inversion E. contradiction.
    + destruct (t =? 0); intros E; inversion E; subst.
      * contradiction.
      * reflexivity.
Qed.

(** The caller of [sys_create_thread] with the inlined arguments of the
    four-initializer routine, and two free blocks. *)
Definition create_call : Kernel :=
  thread_kernel [5000; 256; 4242; 7; 3] [200; 300].

Definition four_initializers : list Initializer :=
  [AssignDedicatedRecyclableStackWithSize (SS := Dedicated);
   SetupExecutionContext (SS := Dedicated);
   AssignUniqueIdentifier;
   AssignPriority].

(** S4: the block 200 is allocated, [AllocateDedicatedStack] finds no room
    for 100000 bytes; the caller stays, reads [-1], and both blocks are free
    again. *)
Lemma create_thread_stack_exhaustion :
  exists k',
    ServiceRoutineBuilder (SS := Dedicated) FreeList
      [AllocateDedicatedStack (SS := Dedicated)] 100 [word 100000] create_call
      = Returned 100 k'
    /\ syscallKernelReturnValue (getExecutionContext (SS := Dedicated) 100 (world k')) = -1
    /\ pool k' = [200; 300]
    /\ List.length (pool k') = List.length (pool create_call)
    /\ sched k' = sched create_call.
Proof.
  apply (create_thread_recoverable_failure
           (SS := Dedicated) DedicatedNonRecyclableStackSupport_lawful
           FreeList (@List.length Z) FreeList_contract
           [AllocateDedicatedStack (SS := Dedicated)] 100 [word 100000] create_call).
  - reflexivity.
  - right. eexists. reflexivity.
Defined.

(** The handler of event 1 returns: it had pushed the shared stack down to
    1900 and passes the old top 2000. *)
Lemma handler_return_rewinds_shared_stack :
  exists k',
    SyscallEventHandlerReturn (SS := Shared) 516 (event_kernel 1900 2 [2000])
      = Returned (fst (onTaskFinished (world k') 516 [])) k'
    /\ getStackPointer (StackSupport := Shared) 516 (world k') = 2000
    /\ sched k' = snd (onTaskFinished (world k') 516 [])
    /\ (Shared = SharedStackSupport -> SharedTaskStackPointer (world k') = 2000).
Proof.
  exact (event_handler_return_restores_stack
           Shared SharedStackSupport_lawful 516 (event_kernel 1900 2 [2000])).
Defined.


(** Modelled from the spec: the mapper of section 4.G.2, "Resolve the handler
    TCB via the Event -> TCB mapper.  If out of range, treat as unrecognized
    and panic." *)
Definition checking_mapper (event : Z) : M Kernel Z :=
  match getRegisteredEvent table (event mod 2 ^ Event_bits table) with
  | Some block => ret block
  | None => pfatal "Unrecognized event."
  end.

(** With that mapper the same call is fatal, and the scheduler has not been
    asked. *)
Example send_event_with_checking_mapper :
  exists k',
    SyscallSendEvent_through (SS := Shared) checking_mapper 100 (event_kernel 2000 1 [2])
      = Halted "Unrecognized event." k'
    /\ sched k' = [].
Proof. eexists. split; reflexivity. Qed.

(** The identifier is assigned, the stack cannot be allocated, and the
    priority that comes after it is never assigned. *)
Lemma initializers_stop_at_stack_exhaustion :
  exists w',
    TaskInitializerBuilderWithArgs
      [AssignUniqueIdentifier; AllocateDedicatedStack (SS := Dedicated); AssignPriority]
      200 [word 7; word 100000; word 3] (world create_call) = Returned false w'
    /\ FirstFailure 200
         [AssignUniqueIdentifier; AllocateDedicatedStack (SS := Dedicated); AssignPriority]
         [word 7; word 100000; word 3] (world create_call) w'
    /\ getUniqueIdentifier 200 w' = 7
    /\ getPriority 200 w' = 0.
Proof.
  eexists. split; [reflexivity|]. split; [|split; reflexivity].
  apply (TaskInitializerBuilderWithArgs_stops_at_first_false
           [AssignUniqueIdentifier; AllocateDedicatedStack (SS := Dedicated); AssignPriority]
           200 [word 7; word 100000; word 3] (world create_call) eq_refl).
  reflexivity.
Defined.

(** S1, first turn: the idle task is resumed, traps with [sys_send_event(1)],
    and the handler block of event 1 is chosen next. *)
Lemma idle_sends_event :
  exists k3,
    iteration
      [PreemptiveEventHandlerTrampolineContextInjector;
       CooperativeEventHandlerTrampolineContextInjector]
      mapper (mkDispatcher 100 100) (event_kernel 2000 1 [1])
      = Returned (mkDispatcher 100 516) k3
    /\ exists k1 k2 identifier r,
        Injected 100 100
          [PreemptiveEventHandlerTrampolineContextInjector;
           CooperativeEventHandlerTrampolineContextInjector]
          (event_kernel 2000 1 [1]) k1
        /\ switch 100 100 k1 = Returned identifier k2
        /\ identifier = fst (switchTask 100 100 (world k1))
        /\ calls k2 = calls k1 ++ [SwitchTask 100 100]
        /\ mapper identifier 100 k2 = Returned r k3
        /\ mkDispatcher 100 516 = mkDispatcher 100 r.
Proof.
  eexists. split.
  - lazy. reflexivity.
  - apply (proj1 (dispatcher_iteration
                    [PreemptiveEventHandlerTrampolineContextInjector;
                     CooperativeEventHandlerTrampolineContextInjector]
                    mapper (mkDispatcher 100 100) (event_kernel 2000 1 [1]))
                 (mkDispatcher 100 516) _).
    lazy. reflexivity.
Defined.

(** The collector on the caller's cursor: the pair, the entry point, the
    identifier and the priority, in that order, and the cursor is left five
    words on. *)
Lemma collector_on_create_call :
  exists w',
    collector (SS := Dedicated) four_initializers 100 (world create_call)
      = Returned [std_pair 5000 256; word 4242; word 7; word 3] w'
    /\ List.length [std_pair 5000 256; word 4242; word 7; word 3]
       = List.length four_initializers
    /\ getStackPointer (StackSupport := Dedicated) 100 w' = 1000
    /\ syscallArgumentList (getExecutionContext (SS := Dedicated) 100 w')
       = mk_va_list (fun n => nth n [5000; 256; 4242; 7; 3] 0) 5.
Proof.
  exact (collector_reads_in_declaration_order
           (SS := Dedicated) DedicatedNonRecyclableStackSupport_lawful
           four_initializers 100 (world create_call)).
Defined.

(** C2, what the code does.  On the caller above, with the free list as task
    controller and the four initializers: the arguments are collected, the
    in-kernel form applied to them creates the task at 200 and the scheduler
    picks it; the system call form has no instantiation. *)
Theorem syscall_form_differs_from_in_kernel_form :
  exists arguments w1 k',
    collector (SS := Dedicated) four_initializers 100 (world create_call)
      = Returned arguments w1
    /\ ServiceRoutineBuilder (SS := Dedicated) FreeList four_initializers
         100 arguments (with_world w1 create_call) = Returned 200 k'
    /\ getUniqueIdentifier 200 (world k') = 7
    /\ getPriority 200 (world k') = 3
    /\ ServiceRoutineBuilderWithTaskArgs (SS := Dedicated)
         (controller_type FreeList) (map initializer_type four_initializers)
         100 create_call = IllFormed.
Proof.
  eexists _, _, _. split; [reflexivity|]. split; [reflexivity|].
  split; [reflexivity|]. split; [reflexivity|].
  apply ServiceRoutineBuilderWithTaskArgs_rejected.
Qed.

(** S3: no block is free; the caller stays and reads [-1]. *)
Example create_thread_without_free_block :
  exists k',
    ServiceRoutineBuilder (SS := Dedicated) FreeList four_initializers 100
      [std_pair 5000 256; word 4242; word 7; word 3]
      (thread_kernel [5000; 256; 4242; 7; 3] []) = Returned 100 k'
    /\ syscallKernelReturnValue (getExecutionContext (SS := Dedicated) 100 (world k')) = -1
    /\ pool k' = [].
Proof. eexists. repeat split. Qed.

(** [SetupExecutionContext] before any stack is assigned: the precondition
    fails and the kernel halts. *)
Example setup_without_stack_halts :
  exists k',
    ServiceRoutineBuilder (SS := Dedicated) FreeList
      [SetupExecutionContext (SS := Dedicated)] 100 [word 4242] create_call
      = Halted "No stack is assigned to the given task." k'.
Proof. eexists. reflexivity. Qed.

(** S5: a trap number the mapper does not know. *)
Example unknown_trap_halts :
  iteration [] mapper (mkDispatcher 100 100) (event_kernel 2000 65535 [])
  = Halted "Unknown system call identifier."
      (record_call (SwitchTask 100 100) (event_kernel 2000 65535 [])).
Proof. reflexivity. Qed.

(** S2: the handler of event 1 (priority 2) is chosen while the handler of
    event 0 (priority 1) runs; the preemptive injector builds its context,
    and it does not the other way round. *)
Example preemptive_injector_on_handlers :
  (exists k',
      PreemptiveEventHandlerTrampolineContextInjector 500 516 (event_kernel 2000 1 [1])
        = Returned tt k'
      /\ calls k' = [BuildContext 500 516]
      /\ SharedTaskStackPointer (world k') = 1984)
  /\ PreemptiveEventHandlerTrampolineContextInjector 516 500 (event_kernel 2000 1 [1])
     = Returned tt (event_kernel 2000 1 [1]).
Proof. split; [eexists; repeat split|reflexivity]. Qed.

(** S6: the cooperative injector with [next == prev]. *)
Example cooperative_injector_same_task :
  CooperativeEventHandlerTrampolineContextInjector 516 516 (event_kernel 2000 1 [1])
  = Returned tt (event_kernel 2000 1 [1]).
Proof. reflexivity. Qed.

End Runs.

(** * Further runs on the concrete kernel *)

Module FurtherRuns.
Import Machine Runs.

#[local] Existing Instance objects.
#[local] Existing Instance scheduler.

(** The free block 200 has no stack yet. *)
Lemma setup_before_and_after_the_stack :
  invoke (SetupExecutionContext (A := architecture) (SS := Dedicated))
    200 (word 4242) (world create_call)
    = Halted "No stack is assigned to the given task." (world create_call)
  /\ TaskInitializerBuilderWithArgs
       [SetupExecutionContext (A := architecture) (SS := Dedicated);
        AssignDedicatedRecyclableStackWithSize (SS := Dedicated)]
       200 [word 4242; std_pair 5000 256] (world create_call)
     = Halted "No stack is assigned to the given task." (world create_call)
  /\ TaskInitializerBuilderWithArgs
       [AssignDedicatedRecyclableStackWithSize (SS := Dedicated);
        SetupExecutionContext (A := architecture) (SS := Dedicated)]
       200 [std_pair 5000 256; word 4242] (world create_call)
     = Returned true
         (TaskContextBuilder (Architecture := architecture) 200 4242
            (setStackPointer (StackSupport := Dedicated) 200 (5000 + 256)
               (setPrivateStack 200 5000 (world create_call)))).
Proof.
  apply (setup_needs_the_stack_first (A := architecture) (SS := Dedicated)
           DedicatedNonRecyclableStackSupport_lawful
           200 5000 256 4242 (world create_call)).
  - reflexivity.
  - lia.
Defined.

(** The in-kernel form on the caller with a free block: the task at 200 is
    created and chosen; with the context set up before the stack, the kernel
    halts and the block 200 stays allocated. *)
Lemma create_thread_runs :
  (forall w',
      TaskInitializerBuilderWithArgs four_initializers 200
        [std_pair 5000 256; word 4242; word 7; word 3] (world create_call)
        = Returned true w' ->
      ServiceRoutineBuilder (SS := Dedicated) FreeList
        four_initializers 100 [std_pair 5000 256; word 4242; word 7; word 3] create_call
      = Returned (fst (onTaskCreated w' 100 200 []))
          (mkKernel w' [300] (snd (onTaskCreated w' 100 200 [])) []))
  /\ (forall diagnostic w',
      TaskInitializerBuilderWithArgs four_initializers 200
        [std_pair 5000 256; word 4242; word 7; word 3] (world create_call)
        = Halted diagnostic w' ->
      ServiceRoutineBuilder (SS := Dedicated) FreeList
        four_initializers 100 [std_pair 5000 256; word 4242; word 7; word 3] create_call
      = Halted diagnostic (mkKernel w' [300] [] [])).
Proof.
  apply (create_thread_success_or_halt (SS := Dedicated)
           FreeList four_initializers 100
           [std_pair 5000 256; word 4242; word 7; word 3] create_call).
  - reflexivity.
  - cbn. lia.
Defined.



(** An architecture whose context builder prepares the shared stack so that
    the resumed handler runs to its end at once: the next trap is the
    trampoline's [sysEventHandlerReturn(oldStack)]. *)
Definition trampoline_architecture : Architecture := {|
  operator_new := operator_new (Architecture := architecture);
  TaskContextBuilder := TaskContextBuilder (Architecture := architecture);
  ContextBuilder := fun prev next w =>
    let sp := SharedTaskStackPointer w - 16 in
    with_context sp (mkContext 2 (arguments_of [SharedTaskStackPointer w]) 0)
      (mkWorld sp (tcb w) (context_at w) (heap w));
  switchTask := fun prev next w =>
    (syscallIdentifier (context_at w (SharedTaskStackPointer w)), w)
|}.

Definition injectors : list (CodeInjector (H := objects)) :=
  [PreemptiveEventHandlerTrampolineContextInjector (A := trampoline_architecture)].

Lemma injectors_no_switch (p n : Z) :
  Forall (fun J => no_switch (J p n)) injectors.
Proof.
  repeat constructor;
    apply (trampoline_injectors_no_switch (A := trampoline_architecture) p n).
Qed.

Lemma mapper_no_switch (identifier task : Z) : no_switch (mapper identifier task).
Proof.
  unfold mapper.
  destruct (identifier =? 1);
    [apply (event_routines_no_switch (SS := Shared) (TableMapper table) task)|].
  destruct (identifier =? 2);
    apply (event_routines_no_switch (SS := Shared) (TableMapper table) task).
Qed.

(** S1 over two turns: the idle task sends event 1 and the handler block 516
    is chosen; its context is built, it runs and returns through the
    trampoline.  Two switches were made, [(100, 100)] and then [(100, 516)],
    and the shared stack pointer is back at 2000. *)
Lemma two_turns_of_the_dispatcher :
  exists d' k',
    dispatch (A := trampoline_architecture) 2 injectors mapper
      (mkDispatcher 100 100) (event_kernel 2000 1 [1]) = Returned d' k'
    /\ prev d' = 516
    /\ SharedTaskStackPointer (world k') = 2000
    /\ calls k' = [SwitchTask 100 100; BuildContext 100 516; SwitchTask 100 516]
    /\ exists l,
        switches (calls k') = switches (calls (event_kernel 2000 1 [1])) ++ l
        /\ List.length l = 2%nat
        /\ Chain 100 100 l (prev d') (next d')
        /\ linked l.
Proof.
  eexists _, _. split; [lazy; reflexivity|].
  split; [reflexivity|]. split; [reflexivity|]. split; [reflexivity|].
  apply (dispatcher_switches_form_a_chain (A := trampoline_architecture)
           injectors mapper injectors_no_switch mapper_no_switch
           2 (mkDispatcher 100 100) _ (event_kernel 2000 1 [1]) _).
  lazy. reflexivity.
Defined.

(** S5 for any number of turns: the first trap carries the identifier
    65535. *)
Lemma unknown_trap_stops_three_turns :
  dispatch (A := architecture) 3 [] mapper (mkDispatcher 100 100)
    (event_kernel 2000 65535 [])
  = Halted "Unknown system call identifier."
      (record_call (SwitchTask 100 100) (event_kernel 2000 65535 [])).
Proof.
  apply (unknown_identifier_stops_the_dispatcher (A := architecture)
           [] mapper 0 (mkDispatcher 100 100) (mkDispatcher 100 100)
           (event_kernel 2000 65535 []) (event_kernel 2000 65535 [])
           (event_kernel 2000 65535 [])).
  - reflexivity.
  - apply Injected_nil.
  - reflexivity.
  - lia.
Defined.

End FurtherRuns.
